(** * Quick Election Service: the in-memory poll store of [backend/main.py]

    A shallow embedding of [PollStore] (and of the request validators that
    guard it) together with the properties of the store that the design
    document states.

    Modelling conventions.
    - A Python [str] is a [string]; a character is a code point below 256.
      [strip] and [lower] follow [str.strip()] and [str.lower()] on that
      range.
    - A Python [dict] keeps insertion order, and [_to_response] and
      [all_polls] iterate over [.values()]; a dict is therefore an
      association list in insertion order ([dict_set] overwrites in place or
      appends).
    - A Python [int] is a [Z]; a [datetime] is a [Z] (a point on the time
      line).
    - [uuid4()] and [datetime.utcnow()] are answers of the environment: an
      operation that calls them takes the answers as arguments.
    - A method of the store is a function from the store to a result and
      the store afterwards; [raise] is the [Raise] result. *)

From Stdlib Require Import String Ascii List ZArith Bool Arith Lia.
From Stdlib Require Import Sorted Permutation.
Import ListNotations.

Local Open Scope string_scope.
Local Open Scope list_scope.

(** ** Strings *)

(** [str.isspace] for one character (code points below 256): the controls
    TAB..CR and FS..US, the space, NEL and the no-break space. *)
Definition isspace (c : ascii) : bool :=
  let n := nat_of_ascii c in
  (((9 <=? n) && (n <=? 13)) || ((28 <=? n) && (n <=? 32))
   || (n =? 133) || (n =? 160))%nat.

Fixpoint lstrip (s : string) : string :=
  match s with
  | EmptyString => EmptyString
  | String c r => if isspace c then lstrip r else s
  end.

Fixpoint rstrip (s : string) : string :=
  match s with
  | EmptyString => EmptyString
  | String c r =>
      match rstrip r with
      | EmptyString => if isspace c then EmptyString else String c EmptyString
      | r' => String c r'
      end
  end.

(** [value.strip()] *)
Definition strip (s : string) : string := rstrip (lstrip s).

(** [str.lower] for one character: A..Z and the Latin-1 capitals move up by
    32, everything else stays. *)
Definition lower_char (c : ascii) : ascii :=
  let n := nat_of_ascii c in
  if (((65 <=? n) && (n <=? 90))
      || ((192 <=? n) && (n <=? 222) && negb (n =? 215)))%nat
  then ascii_of_nat (n + 32) else c.

(** [value.lower()] *)
Fixpoint lower (s : string) : string :=
  match s with
  | EmptyString => EmptyString
  | String c r => String (lower_char c) (lower r)
  end.

(** Truthiness of a string: [if s] / [if not s]. *)
Definition truthy (s : string) : bool :=
  match s with EmptyString => false | _ => true end.

(** ** Dictionaries in insertion order *)

Definition dict (V : Type) : Type := list (string * V).

Fixpoint dict_get {V : Type} (k : string) (d : dict V) : option V :=
  match d with
  | [] => None
  | (k', v) :: r => if k' =? k then Some v else dict_get k r
  end.

(** [d[k] = v]: an existing key keeps its place, a new key goes last. *)
Fixpoint dict_set {V : Type} (k : string) (v : V) (d : dict V) : dict V :=
  match d with
  | [] => [(k, v)]
  | (k', v') :: r =>
      if k' =? k then (k, v) :: r else (k', v') :: dict_set k v r
  end.

(** [k in d] *)
Definition dict_contains {V : Type} (k : string) (d : dict V) : bool :=
  match dict_get k d with Some _ => true | None => false end.

Definition dict_keys {V : Type} (d : dict V) : list string := map fst d.
Definition dict_values {V : Type} (d : dict V) : list V := map snd d.
Definition dict_len {V : Type} (d : dict V) : Z := Z.of_nat (length d).

(** ** [list.sort(key=..., reverse=...)]

    Python's sort is stable, also with [reverse=True]: the result is the one
    sorted arrangement in which elements with equal keys keep their order.
    Insertion from the right builds exactly that arrangement. *)
Section ListSort.
Context {A K : Type} (key : A -> K) (le : K -> K -> bool).

Fixpoint sort_insert (x : A) (l : list A) : list A :=
  match l with
  | [] => [x]
  | y :: r => if le (key x) (key y) then x :: l else y :: sort_insert x r
  end.

Definition list_sort (l : list A) : list A := fold_right sort_insert [] l.

(** [x] may stand before [y] in the sorted list. *)
Definition key_le (x y : A) : Prop := le (key x) (key y) = true.
End ListSort.

(** ** Data model *)

Inductive PollStatus : Type := OPEN | CLOSED.

Definition PollStatus_eqb (a b : PollStatus) : bool :=
  match a, b with
  | OPEN, OPEN | CLOSED, CLOSED => true
  | _, _ => false
  end.

Definition datetime : Type := Z.

Module PollOptionRecord.
Record t : Type := mk { id : string; label : string; votes : Z }.
End PollOptionRecord.

Module PollRecord.
Record t : Type := mk {
  id : string;
  title : string;
  status : PollStatus;
  created_at : datetime;
  closed_at : option datetime;
  options : dict PollOptionRecord.t;
  voters : dict string
}.
End PollRecord.

Module PollOption.
Record t : Type := mk { id : string; label : string; votes : Z }.
End PollOption.

Module PollResponse.
Record t : Type := mk {
  id : string;
  title : string;
  status : PollStatus;
  created_at : datetime;
  closed_at : option datetime;
  options : list PollOption.t
}.
End PollResponse.

(** The store: [self._polls]. *)
Definition PollStore : Type := dict PollRecord.t.

(** [PollStore.__init__] *)
Definition empty_store : PollStore := [].

(** ** Exceptions and results *)

Inductive exn : Type :=
| KeyError (msg : string)
| ValueError (msg : string)
| ValidationError (errors : list string).

(** [str(exc)] for the exceptions raised with one message. *)
Definition exn_msg (e : exn) : string :=
  match e with
  | KeyError msg | ValueError msg => msg
  | ValidationError errors => String.concat "; " errors
  end.

Inductive result (A : Type) : Type :=
| Ok (a : A)
| Raise (e : exn).
Arguments Ok {A} a.
Arguments Raise {A} e.

(** The names the design document gives to the failures of the store. *)
Definition NotFound : exn := KeyError "Poll not found".
Definition AlreadyClosed : exn := ValueError "Poll is closed".
Definition DuplicateVoter : exn :=
  ValueError "This voter has already voted in this poll".
Definition InvalidOption : exn := ValueError "Option not found".

(** A method of the store. *)
Definition M (A : Type) : Type := PollStore -> result A * PollStore.

(** ** Request validation: [CreatePollRequest] *)

(** [validate_title] *)
Definition validate_title (value : string) : result string :=
  let title := strip value in
  if negb (truthy title) then Raise (ValueError "Title is required")
  else Ok title.

(** The loop of [validate_options]: [seen] holds the lowered labels met so
    far, [unique] the labels kept, in order. *)
Fixpoint unique_loop (cleaned : list string) (seen : list string)
    (unique : list string) : list string :=
  match cleaned with
  | [] => unique
  | option :: rest =>
      let lower := lower option in
      if negb (existsb (String.eqb lower) seen)
      then unique_loop rest (lower :: seen) (unique ++ [option])
      else unique_loop rest seen unique
  end.

(** [validate_options] *)
Definition validate_options (value : list string) : result (list string) :=
  let cleaned := map strip (filter (fun opt => truthy (strip opt)) value) in
  let unique := unique_loop cleaned [] [] in
  if (length unique <? 2)%nat
  then Raise (ValueError "At least two unique options are required")
  else Ok unique.

Module CreatePollRequest.
Record t : Type := mk { title : string; options : list string }.

(** Construction of the request model: both validators run, in field
    order, and their failures are collected in one [ValidationError]. *)
Definition parse (title : string) (options : list string) : result t :=
  match validate_title title, validate_options options with
  | Ok t, Ok o => Ok (mk t o)
  | Raise e, Ok _ => Raise (ValidationError [exn_msg e])
  | Ok _, Raise e => Raise (ValidationError [exn_msg e])
  | Raise e1, Raise e2 => Raise (ValidationError [exn_msg e1; exn_msg e2])
  end.
End CreatePollRequest.

(** ** The store's methods *)

(** [PollOption(id=option.id, label=option.label, votes=option.votes)] *)
Definition option_view (option : PollOptionRecord.t) : PollOption.t :=
  PollOption.mk (PollOptionRecord.id option)
    (PollOptionRecord.label option) (PollOptionRecord.votes option).

(** [PollStore._to_response] *)
Definition _to_response (record : PollRecord.t) : PollResponse.t :=
  let options := map option_view (dict_values (PollRecord.options record)) in
  let options :=
    list_sort (fun opt => lower (PollOption.label opt)) String.leb options in
  PollResponse.mk (PollRecord.id record) (PollRecord.title record)
    (PollRecord.status record) (PollRecord.created_at record)
    (PollRecord.closed_at record) options.

(** [PollStore.all_polls]; [reverse=True] sorts on the converse order. *)
Definition all_polls : M (list PollResponse.t) := fun self =>
  let records := dict_values self in
  let records :=
    list_sort PollRecord.created_at (fun a b => Z.leb b a) records in
  (Ok (map _to_response records), self).

(** The loop of [create_poll]; [uuid4 k] is the answer of the [k]-th call of
    [uuid4().hex] in this operation, and the poll's id took call 0. *)
Fixpoint option_loop (uuid4 : nat -> string) (k : nat) (options : list string)
    (option_records : dict PollOptionRecord.t) : dict PollOptionRecord.t :=
  match options with
  | [] => option_records
  | label :: rest =>
      let option_id := uuid4 k in
      option_loop uuid4 (S k) rest
        (dict_set option_id (PollOptionRecord.mk option_id label 0)
           option_records)
  end.

(** [PollStore.create_poll]; [utcnow] is the answer of [datetime.utcnow()]
    in the default of [created_at]. *)
Definition create_poll (uuid4 : nat -> string) (utcnow : datetime)
    (title : string) (options : list string) : M PollResponse.t := fun self =>
  let poll_id := uuid4 0%nat in
  let option_records := option_loop uuid4 1 options [] in
  let poll :=
    PollRecord.mk poll_id title OPEN utcnow None option_records [] in
  (Ok (_to_response poll), dict_set poll_id poll self).

(** [PollStore.close_poll] *)
Definition close_poll (utcnow : datetime) (poll_id : string)
    : M PollResponse.t := fun self =>
  match dict_get poll_id self with
  | None => (Raise (KeyError "Poll not found"), self)
  | Some poll =>
      let poll :=
        PollRecord.mk (PollRecord.id poll) (PollRecord.title poll)
          CLOSED (PollRecord.created_at poll) (Some utcnow)
          (PollRecord.options poll) (PollRecord.voters poll) in
      (Ok (_to_response poll), dict_set poll_id poll self)
  end.

(** [PollStore.vote] *)
Definition vote (poll_id voter_name option_id : string)
    : M PollResponse.t := fun self =>
  let voter_key := lower (strip voter_name) in
  match dict_get poll_id self with
  | None => (Raise (KeyError "Poll not found"), self)
  | Some poll =>
      if negb (PollStatus_eqb (PollRecord.status poll) OPEN)
      then (Raise (ValueError "Poll is closed"), self)
      else if dict_contains voter_key (PollRecord.voters poll)
      then (Raise (ValueError "This voter has already voted in this poll"),
            self)
      else
        match dict_get option_id (PollRecord.options poll) with
        | None => (Raise (ValueError "Option not found"), self)
        | Some option =>
            let option :=
              PollOptionRecord.mk (PollOptionRecord.id option)
                (PollOptionRecord.label option)
                (PollOptionRecord.votes option + 1) in
            let poll :=
              PollRecord.mk (PollRecord.id poll) (PollRecord.title poll)
                (PollRecord.status poll) (PollRecord.created_at poll)
                (PollRecord.closed_at poll)
                (dict_set option_id option (PollRecord.options poll))
                (dict_set voter_key option_id (PollRecord.voters poll)) in
            (Ok (_to_response poll), dict_set poll_id poll self)
        end
  end.

(** The create call of the service for an authorised caller: the request
    model is built (and validated) from the body, then the handler passes
    its fields to the store. *)
Definition create (uuid4 : nat -> string) (utcnow : datetime)
    (title : string) (options : list string) : M PollResponse.t := fun self =>
  match CreatePollRequest.parse title options with
  | Raise e => (Raise e, self)
  | Ok payload =>
      create_poll uuid4 utcnow (CreatePollRequest.title payload)
        (CreatePollRequest.options payload) self
  end.

(** ** Sequences of calls *)

(** One call on the store, with the answers the environment gives to it. *)
Inductive Op : Type :=
| OpCreate (uuid4 : nat -> string) (utcnow : datetime)
    (title : string) (options : list string)
| OpCreatePoll (uuid4 : nat -> string) (utcnow : datetime)
    (title : string) (options : list string)
| OpVote (poll_id voter_name option_id : string)
| OpClosePoll (utcnow : datetime) (poll_id : string)
| OpAllPolls.

(** The store after one call. *)
Definition exec (op : Op) (self : PollStore) : PollStore :=
  match op with
  | OpCreate uuid4 utcnow title options =>
      snd (create uuid4 utcnow title options self)
  | OpCreatePoll uuid4 utcnow title options =>
      snd (create_poll uuid4 utcnow title options self)
  | OpVote poll_id voter_name option_id =>
      snd (vote poll_id voter_name option_id self)
  | OpClosePoll utcnow poll_id => snd (close_poll utcnow poll_id self)
  | OpAllPolls => snd (all_polls self)
  end.

(** The store after a sequence of calls, first call first. *)
Definition run (ops : list Op) (self : PollStore) : PollStore :=
  fold_left (fun s op => exec op s) ops self.

(** [uuid4] does not repeat itself: the id a creating call draws for its
    poll is not the id of a poll already in the store. *)
Definition uuid_fresh (op : Op) (self : PollStore) : Prop :=
  match op with
  | OpCreate uuid4 _ _ _ | OpCreatePoll uuid4 _ _ _ =>
      dict_get (uuid4 0%nat) self = None
  | _ => True
  end.

Fixpoint uuids_fresh (ops : list Op) (self : PollStore) : Prop :=
  match ops with
  | [] => True
  | op :: rest => uuid_fresh op self /\ uuids_fresh rest (exec op self)
  end.

(** ** Observations on a poll *)

Fixpoint sum (l : list Z) : Z :=
  match l with
  | [] => 0
  | x :: r => x + sum r
  end.

(** The sum of the vote counts of the poll's options. *)
Definition total_votes (poll : PollRecord.t) : Z :=
  sum (map PollOptionRecord.votes (dict_values (PollRecord.options poll))).

(** [len(poll.voters)] *)
Definition ledger_size (poll : PollRecord.t) : Z :=
  dict_len (PollRecord.voters poll).

(** The orders of the views: creation time descending for polls, label
    ascending without regard to case for options (strings compare code
    point by code point). *)
Definition newest_first (a b : PollResponse.t) : Prop :=
  (PollResponse.created_at b <= PollResponse.created_at a)%Z.

Definition label_ascending (a b : PollOption.t) : Prop :=
  (lower (PollOption.label a) <=? lower (PollOption.label b)) = true.

(** The tally of a poll agrees with its ledger. *)
Definition tally_ok (poll : PollRecord.t) : Prop :=
  total_votes poll = ledger_size poll.

Definition store_ok (self : PollStore) : Prop :=
  Forall (fun kv => tally_ok (snd kv)) self.

(** What a later state keeps of a poll: the same options under the same
    ids, with the same labels and no smaller counts, and a closed poll
    stays closed. *)
Definition option_kept (o o' : PollOptionRecord.t) : Prop :=
  PollOptionRecord.id o' = PollOptionRecord.id o
  /\ PollOptionRecord.label o' = PollOptionRecord.label o
  /\ (PollOptionRecord.votes o <= PollOptionRecord.votes o')%Z.

Definition poll_kept (p p' : PollRecord.t) : Prop :=
  dict_keys (PollRecord.options p') = dict_keys (PollRecord.options p)
  /\ (forall oid o, dict_get oid (PollRecord.options p) = Some o ->
        exists o', dict_get oid (PollRecord.options p') = Some o'
                   /\ option_kept o o')
  /\ (PollRecord.status p = CLOSED -> PollRecord.status p' = CLOSED).

Definition store_kept (s s' : PollStore) : Prop :=
  forall pid p, dict_get pid s = Some p ->
    exists p', dict_get pid s' = Some p' /\ poll_kept p p'.

(** The design document's rule for the option labels that survive: of the
    labels that agree up to case the first one is kept, and the kept labels
    stay in the order in which they first appear. *)
Fixpoint first_occurrences (labels : list string) : list string :=
  match labels with
  | [] => []
  | x :: rest =>
      x :: filter (fun y => negb (lower y =? lower x))
             (first_occurrences rest)
  end.

(** Trim each entry, drop the empty ones, keep the first occurrences. *)
Definition surviving_options (options : list string) : list string :=
  first_occurrences (filter truthy (map strip options)).

(** Closing an already closed poll changes nothing of it (the reading of
    "idempotent" that the code does not meet). *)
Definition close_leaves_unchanged (self : PollStore) (utcnow : datetime)
    (poll_id : string) : Prop :=
  forall poll,
    dict_get poll_id self = Some poll ->
    PollRecord.status poll = CLOSED ->
    exists view self' poll',
      close_poll utcnow poll_id self = (Ok view, self')
      /\ dict_get poll_id self' = Some poll'
      /\ PollRecord.status poll' = PollRecord.status poll
      /\ PollRecord.closed_at poll' = PollRecord.closed_at poll
      /\ PollRecord.options poll' = PollRecord.options poll
      /\ PollRecord.voters poll' = PollRecord.voters poll.

(** ** A scenario

    The end-to-end scenario of the design document: a poll "Lunch" is
    created, Alice votes for pizza, the poll is closed. [uuid4] answers
    "a", "b", "c", ... *)
Definition demo_uuid4 (k : nat) : string := String (ascii_of_nat (97 + k)) "".

(** The answers of [uuid4] to a later creating call: "e", "f", ... *)
Definition later_uuid4 (k : nat) : string := demo_uuid4 (4 + k).

Definition lunch_created : PollStore :=
  run [OpCreate demo_uuid4 5%Z "Lunch" ["Pizza"; "Pizza"; "Tacos"; "Salad"]]
    empty_store.

Definition lunch_voted : PollStore := run [OpVote "a" "Alice" "b"] lunch_created.

Definition lunch_closed : PollStore := run [OpClosePoll 9%Z "a"] lunch_voted.

Definition lunch_options (pizza : Z) : dict PollOptionRecord.t :=
  [("b", PollOptionRecord.mk "b" "Pizza" pizza);
   ("c", PollOptionRecord.mk "c" "Tacos" 0%Z);
   ("d", PollOptionRecord.mk "d" "Salad" 0%Z)].

Definition lunch_poll_created : PollRecord.t :=
  PollRecord.mk "a" "Lunch" OPEN 5%Z None (lunch_options 0%Z) [].

Definition lunch_poll_voted : PollRecord.t :=
  PollRecord.mk "a" "Lunch" OPEN 5%Z None (lunch_options 1%Z) [("alice", "b")].

Definition lunch_poll_closed : PollRecord.t :=
  PollRecord.mk "a" "Lunch" CLOSED 5%Z (Some 9%Z) (lunch_options 1%Z)
    [("alice", "b")].

(** ** Request validation: [LoginRequest] and [VoteRequest] *)

(** [LoginRequest.validate_name] *)
Definition validate_name (value : string) : result string :=
  let name := strip value in
  if negb (truthy name) then Raise (ValueError "Name is required")
  else Ok name.

(** [VoteRequest.validate_voter_name] *)
Definition validate_voter_name (value : string) : result string :=
  let voter := strip value in
  if negb (truthy voter) then Raise (ValueError "Voter name is required")
  else Ok voter.

Module LoginRequest.
Record t : Type := mk { name : string }.

Definition parse (name : string) : result t :=
  match validate_name name with
  | Ok n => Ok (mk n)
  | Raise e => Raise (ValidationError [exn_msg e])
  end.
End LoginRequest.

Module LoginResponse.
Record t : Type := mk {
  name : string;
  role : string;
  admin_key : option string
}.
End LoginResponse.

Module VoteRequest.
Record t : Type := mk { voter_name : string; option_id : string }.

(** [option_id] has no validator. *)
Definition parse (voter_name option_id : string) : result t :=
  match validate_voter_name voter_name with
  | Ok v => Ok (mk v option_id)
  | Raise e => Raise (ValidationError [exn_msg e])
  end.
End VoteRequest.

(** ** The request handlers *)

Module HTTPException.
Record t : Type := mk { status_code : nat; detail : string }.
End HTTPException.

(** The status codes of [fastapi.status] that the handlers name. *)
Module status.
Definition HTTP_400_BAD_REQUEST : nat := 400.
Definition HTTP_403_FORBIDDEN : nat := 403.
Definition HTTP_404_NOT_FOUND : nat := 404.
End status.

(** What a handler does: it returns a value, raises an [HTTPException], or
    lets an exception of the store through. *)
Inductive reply (A : Type) : Type :=
| Returned (a : A)
| Raised (e : HTTPException.t)
| Uncaught (e : exn).
Arguments Returned {A} a.
Arguments Raised {A} e.
Arguments Uncaught {A} e.

Module Api.
Section Config.
(** [ADMIN_KEYWORD] is read from the environment when the module is loaded;
    [str_exc] is [str(exc)], the text of an exception. *)
Variable ADMIN_KEYWORD : string.
Variable str_exc : exn -> string.

(** [require_admin]; [None] is a request without the [X-Admin-Key] header. *)
Definition require_admin (x_admin_key : option string) : reply unit :=
  match x_admin_key with
  | None =>
      Raised (HTTPException.mk status.HTTP_403_FORBIDDEN
                "Admin privileges required")
  | Some key =>
      if negb (truthy key) || negb (key =? ADMIN_KEYWORD)
      then Raised (HTTPException.mk status.HTTP_403_FORBIDDEN
                     "Admin privileges required")
      else Returned tt
  end.

(** [login] *)
Definition login (payload : LoginRequest.t) : LoginResponse.t :=
  let name := LoginRequest.name payload in
  if name =? ADMIN_KEYWORD
  then LoginResponse.mk name "admin" (Some ADMIN_KEYWORD)
  else LoginResponse.mk name "participant" None.

(** [list_polls] *)
Definition list_polls (poll_store : PollStore)
    : reply (list PollResponse.t) * PollStore :=
  match all_polls poll_store with
  | (Ok views, s) => (Returned views, s)
  | (Raise exc, s) => (Uncaught exc, s)
  end.

(** The handler [create_poll]; [Depends(require_admin)] runs first, and the
    body runs only if it returns. [except ValueError] also takes the
    [ValidationError] of the request models, a subclass. *)
Definition create_poll (uuid4 : nat -> string) (utcnow : datetime)
    (payload : CreatePollRequest.t) (x_admin_key : option string)
    (poll_store : PollStore) : reply PollResponse.t * PollStore :=
  match require_admin x_admin_key with
  | Raised e => (Raised e, poll_store)
  | Uncaught e => (Uncaught e, poll_store)
  | Returned _ =>
      match create_poll uuid4 utcnow (CreatePollRequest.title payload)
              (CreatePollRequest.options payload) poll_store with
      | (Ok view, s) => (Returned view, s)
      | (Raise (KeyError msg), s) => (Uncaught (KeyError msg), s)
      | (Raise exc, s) =>
          (Raised (HTTPException.mk status.HTTP_400_BAD_REQUEST
                     (str_exc exc)), s)
      end
  end.

(** The handler [vote] *)
Definition vote (poll_id : string) (payload : VoteRequest.t)
    (poll_store : PollStore) : reply PollResponse.t * PollStore :=
  match vote poll_id (VoteRequest.voter_name payload)
          (VoteRequest.option_id payload) poll_store with
  | (Ok view, s) => (Returned view, s)
  | (Raise (KeyError msg), s) =>
      (Raised (HTTPException.mk status.HTTP_404_NOT_FOUND
                 (str_exc (KeyError msg))), s)
  | (Raise exc, s) =>
      (Raised (HTTPException.mk status.HTTP_400_BAD_REQUEST (str_exc exc)),
       s)
  end.

(** The handler [close_poll] *)
Definition close_poll (utcnow : datetime) (poll_id : string)
    (x_admin_key : option string) (poll_store : PollStore)
    : reply PollResponse.t * PollStore :=
  match require_admin x_admin_key with
  | Raised e => (Raised e, poll_store)
  | Uncaught e => (Uncaught e, poll_store)
  | Returned _ =>
      match close_poll utcnow poll_id poll_store with
      | (Ok view, s) => (Returned view, s)
      | (Raise (KeyError msg), s) =>
          (Raised (HTTPException.mk status.HTTP_404_NOT_FOUND
                     (str_exc (KeyError msg))), s)
      | (Raise exc, s) => (Uncaught exc, s)
      end
  end.
End Config.
End Api.

(** ** Further observations *)

(** A string of whitespace only (the empty string included). *)
Fixpoint isblank (s : string) : bool :=
  match s with
  | EmptyString => true
  | String c r => isspace c && isblank r
  end.

(** The number of ledger entries that name the option [option_id]. *)
Definition ballots_for (option_id : string) (voters : dict string) : Z :=
  Z.of_nat (count_occ string_dec (dict_values voters) option_id).

(** Several votes on one poll, one after the other: the outcomes in order,
    and the store at the end. *)
Fixpoint vote_all (poll_id : string) (ballots : list (string * string))
    (self : PollStore) : list (result PollResponse.t) * PollStore :=
  match ballots with
  | [] => ([], self)
  | (voter_name, option_id) :: rest =>
      let (outcome, self1) := vote poll_id voter_name option_id self in
      let (outcomes, self2) := vote_all poll_id rest self1 in
      (outcome :: outcomes, self2)
  end.

Definition is_ok {A : Type} (r : result A) : Prop :=
  match r with Ok _ => True | Raise _ => False end.

(** What never changes of a poll once it is in the store: its id, title and
    creation time, and every ballot in its ledger. *)
Definition ballots_kept (p p' : PollRecord.t) : Prop :=
  PollRecord.id p' = PollRecord.id p
  /\ PollRecord.title p' = PollRecord.title p
  /\ PollRecord.created_at p' = PollRecord.created_at p
  /\ forall voter_key option_id,
       dict_get voter_key (PollRecord.voters p) = Some option_id ->
       dict_get voter_key (PollRecord.voters p') = Some option_id.

(** The calls of the scenario, with the two votes that fail. *)
Definition lunch_calls : list Op :=
  [OpCreate demo_uuid4 5%Z "Lunch" ["Pizza"; "Pizza"; "Tacos"; "Salad"];
   OpVote "a" "Alice" "b"; OpVote "a" "alice " "c"; OpClosePoll 9%Z "a";
   OpVote "a" "Bob" "c"].

(** * Properties *)

(** ** Dictionaries *)

Section DictFacts.
Context {V : Type}.
Implicit Types (d : dict V) (k : string) (v : V).

Lemma dict_get_set_eq k v d : dict_get k (dict_set k v d) = Some v.
Proof.
  induction d as [|[k' v'] d IH]; simpl.
  - now rewrite String.eqb_refl.
  - destruct (k' =? k) eqn:E; simpl.
    + now rewrite String.eqb_refl.
    + now rewrite E.
Qed.

Lemma dict_get_set_ne k k' v d :
  k <> k' -> dict_get k' (dict_set k v d) = dict_get k' d.
Proof.
  intros Hne. induction d as [|[k0 v0] d IH]; simpl.
  - apply String.eqb_neq in Hne. now rewrite Hne.
  - destruct (k0 =? k) eqn:E; simpl.
    + apply String.eqb_eq in E. subst k0.
      apply String.eqb_neq in Hne. now rewrite Hne.
    + now rewrite IH.
Qed.

Lemma dict_get_In k v d : dict_get k d = Some v -> In (k, v) d.
Proof.
  induction d as [|[k' v'] d IH]; simpl; [discriminate|].
  destruct (k' =? k) eqn:E.
  - apply String.eqb_eq in E. intros [= ->]. subst. now left.
  - intros H. right. now apply IH.
Qed.

Lemma dict_set_absent k v d :
  dict_get k d = None -> dict_set k v d = d ++ [(k, v)].
Proof.
  induction d as [|[k' v'] d IH]; simpl; [reflexivity|].
  destruct (k' =? k); [discriminate|]. intros H. now rewrite IH.
Qed.

Lemma dict_keys_set_present k v v' d :
  dict_get k d = Some v' -> dict_keys (dict_set k v d) = dict_keys d.
Proof.
  induction d as [|[k0 v0] d IH]; simpl; [discriminate|].
  destruct (k0 =? k) eqn:E; simpl.
  - apply String.eqb_eq in E. now subst.
  - intros H. f_equal. now apply IH.
Qed.

Lemma dict_set_Forall (P : string * V -> Prop) k v d :
  Forall P d -> P (k, v) -> Forall P (dict_set k v d).
Proof.
  intros Hd Hv. induction Hd as [|[k' v'] d Hx Hd IH]; simpl.
  - now constructor.
  - destruct (k' =? k); constructor; auto.
Qed.

Lemma dict_len_set_absent k v d :
  dict_get k d = None -> dict_len (dict_set k v d) = (dict_len d + 1)%Z.
Proof.
  intros H. rewrite (dict_set_absent _ _ _ H). unfold dict_len.
  rewrite length_app. simpl. lia.
Qed.

Lemma dict_contains_false k d :
  dict_contains k d = false -> dict_get k d = None.
Proof. unfold dict_contains. now destruct (dict_get k d). Qed.
End DictFacts.

(** ** The tally invariant *)

Lemma sum_set_votes oid o (d : dict PollOptionRecord.t) :
  dict_get oid d = Some o ->
  sum (map PollOptionRecord.votes
         (dict_values
            (dict_set oid
               (PollOptionRecord.mk (PollOptionRecord.id o)
                  (PollOptionRecord.label o) (PollOptionRecord.votes o + 1))
               d)))
  = (sum (map PollOptionRecord.votes (dict_values d)) + 1)%Z.
Proof.
  induction d as [|[k v] d IH]; simpl; [discriminate|].
  destruct (k =? oid) eqn:E; simpl.
  - intros [= ->]. lia.
  - intros H. rewrite (IH H). lia.
Qed.

Lemma option_loop_zero uuid4 options : forall k acc,
  Forall (fun kv => PollOptionRecord.votes (snd kv) = 0%Z) acc ->
  Forall (fun kv => PollOptionRecord.votes (snd kv) = 0%Z)
    (option_loop uuid4 k options acc).
Proof.
  induction options as [|label rest IH]; intros k acc Hacc; simpl; auto.
  apply IH. now apply dict_set_Forall.
Qed.

Lemma sum_all_zero (d : dict PollOptionRecord.t) :
  Forall (fun kv => PollOptionRecord.votes (snd kv) = 0%Z) d ->
  sum (map PollOptionRecord.votes (dict_values d)) = 0%Z.
Proof.
  induction 1 as [|[k v] d Hv _ IH]; simpl in *; [reflexivity|]. lia.
Qed.

Lemma create_poll_ok uuid4 utcnow title options self :
  store_ok self -> store_ok (snd (create_poll uuid4 utcnow title options self)).
Proof.
  intros H. unfold create_poll; simpl. apply dict_set_Forall; auto.
  unfold tally_ok, total_votes, ledger_size; simpl.
  apply sum_all_zero, option_loop_zero. constructor.
Qed.

Lemma vote_ok poll_id voter_name option_id self :
  store_ok self -> store_ok (snd (vote poll_id voter_name option_id self)).
Proof.
  intros H. unfold vote.
  destruct (dict_get poll_id self) as [poll|] eqn:Hp; simpl; auto.
  destruct (PollStatus_eqb (PollRecord.status poll) OPEN); simpl; auto.
  destruct (dict_contains _ (PollRecord.voters poll)) eqn:Hv; simpl; auto.
  destruct (dict_get option_id (PollRecord.options poll)) as [o|] eqn:Ho;
    simpl; auto.
  apply dict_set_Forall; auto.
  assert (Hpoll : tally_ok poll).
  { apply dict_get_In in Hp. unfold store_ok in H.
    rewrite Forall_forall in H. exact (H _ Hp). }
  unfold tally_ok, total_votes, ledger_size in *; simpl.
  rewrite (sum_set_votes _ _ _ Ho), Hpoll.
  symmetry. apply dict_len_set_absent. now apply dict_contains_false.
Qed.

Lemma close_poll_ok utcnow poll_id self :
  store_ok self -> store_ok (snd (close_poll utcnow poll_id self)).
Proof.
  intros H. unfold close_poll.
  destruct (dict_get poll_id self) as [poll|] eqn:Hp; simpl; auto.
  apply dict_set_Forall; auto.
  apply dict_get_In in Hp. unfold store_ok in H.
  rewrite Forall_forall in H. exact (H _ Hp).
Qed.

Lemma exec_ok op self : store_ok self -> store_ok (exec op self).
Proof.
  destruct op; simpl; intros H.
  - unfold create. destruct (CreatePollRequest.parse title options); auto.
    now apply create_poll_ok.
  - now apply create_poll_ok.
  - now apply vote_ok.
  - now apply close_poll_ok.
  - exact H.
Qed.

Lemma run_ok ops : forall self, store_ok self -> store_ok (run ops self).
Proof.
  induction ops as [|op ops IH]; intros self H; simpl; auto.
  apply IH. now apply exec_ok.
Qed.

(** C1. After any sequence of calls on a store that started empty, every
    poll in the store has the sum of its options' vote counts equal to the
    number of entries of its voter ledger. *)
Theorem tally_equals_ledger (ops : list Op) (poll_id : string)
    (poll : PollRecord.t) :
  dict_get poll_id (run ops empty_store) = Some poll ->
  total_votes poll = ledger_size poll.
Proof.
  intros Hp. apply dict_get_In in Hp.
  pose proof (run_ok ops empty_store (Forall_nil _)) as H.
  unfold store_ok in H. rewrite Forall_forall in H. exact (H _ Hp).
Qed.

(** ** What every call keeps *)

Lemma option_kept_refl o : option_kept o o.
Proof. unfold option_kept. repeat split; lia. Qed.

Lemma poll_kept_refl p : poll_kept p p.
Proof.
  unfold poll_kept. repeat split; auto.
  intros oid o H. exists o. split; auto using option_kept_refl.
Qed.

Lemma poll_kept_trans p q r : poll_kept p q -> poll_kept q r -> poll_kept p r.
Proof.
  intros (K1 & O1 & S1) (K2 & O2 & S2). unfold poll_kept. repeat split.
  - congruence.
  - intros oid o Ho. destruct (O1 _ _ Ho) as (o1 & Ho1 & (I1 & L1 & V1)).
    destruct (O2 _ _ Ho1) as (o2 & Ho2 & (I2 & L2 & V2)).
    exists o2. split; auto. unfold option_kept. repeat split; try congruence.
    lia.
  - auto.
Qed.

Lemma store_kept_refl s : store_kept s s.
Proof. intros pid p H. exists p. split; auto using poll_kept_refl. Qed.

Lemma store_kept_trans s t w : store_kept s t -> store_kept t w -> store_kept s w.
Proof.
  intros H1 H2 pid p Hp. destruct (H1 _ _ Hp) as (q & Hq & K1).
  destruct (H2 _ _ Hq) as (r & Hr & K2). exists r. split; auto.
  eapply poll_kept_trans; eauto.
Qed.

(** Overwriting one poll by a poll that keeps it keeps the store. *)
Lemma store_kept_set (s : PollStore) pid p p' :
  dict_get pid s = Some p -> poll_kept p p' ->
  store_kept s (dict_set pid p' s).
Proof.
  intros Hp K pid0 p0 H0. destruct (string_dec pid pid0) as [->|Hne].
  - rewrite dict_get_set_eq. exists p'. split; congruence.
  - rewrite dict_get_set_ne by assumption. exists p0.
    split; auto using poll_kept_refl.
Qed.

(** Adding a poll under a new id keeps the store. *)
Lemma store_kept_new (s : PollStore) pid p' :
  dict_get pid s = None -> store_kept s (dict_set pid p' s).
Proof.
  intros Hp pid0 p0 H0. destruct (string_dec pid pid0) as [->|Hne].
  - congruence.
  - rewrite dict_get_set_ne by assumption. exists p0.
    split; auto using poll_kept_refl.
Qed.

Lemma vote_kept poll_id voter_name option_id self :
  store_kept self (snd (vote poll_id voter_name option_id self)).
Proof.
  unfold vote.
  destruct (dict_get poll_id self) as [poll|] eqn:Hp; simpl;
    auto using store_kept_refl.
  destruct (PollStatus_eqb (PollRecord.status poll) OPEN); simpl;
    auto using store_kept_refl.
  destruct (dict_contains _ (PollRecord.voters poll)); simpl;
    auto using store_kept_refl.
  destruct (dict_get option_id (PollRecord.options poll)) as [o|] eqn:Ho;
    simpl; auto using store_kept_refl.
  apply (store_kept_set _ _ _ _ Hp). unfold poll_kept; simpl.
  split; [|split]; auto.
  - eapply dict_keys_set_present; eauto.
  - intros oid o0 H0. destruct (string_dec option_id oid) as [->|Hne].
    + rewrite dict_get_set_eq. eexists. split; [reflexivity|].
      assert (o0 = o) by congruence. subst o0.
      unfold option_kept; simpl. repeat split; lia.
    + rewrite dict_get_set_ne by assumption. exists o0.
      split; auto using option_kept_refl.
Qed.

Lemma close_poll_kept utcnow poll_id self :
  store_kept self (snd (close_poll utcnow poll_id self)).
Proof.
  unfold close_poll.
  destruct (dict_get poll_id self) as [poll|] eqn:Hp; simpl;
    auto using store_kept_refl.
  apply (store_kept_set _ _ _ _ Hp). unfold poll_kept; simpl.
  repeat split; auto.
  intros oid o H. exists o. split; auto using option_kept_refl.
Qed.

Lemma create_poll_kept uuid4 utcnow title options self :
  dict_get (uuid4 0%nat) self = None ->
  store_kept self (snd (create_poll uuid4 utcnow title options self)).
Proof. intros H. unfold create_poll; simpl. now apply store_kept_new. Qed.

Lemma exec_kept op self : uuid_fresh op self -> store_kept self (exec op self).
Proof.
  destruct op; simpl; intros H.
  - unfold create. destruct (CreatePollRequest.parse title options);
      simpl; auto using store_kept_refl.
    now apply create_poll_kept.
  - now apply create_poll_kept.
  - apply vote_kept.
  - apply close_poll_kept.
  - apply store_kept_refl.
Qed.

(** C8. Along every sequence of calls (create, vote, close, list), with
    [uuid4] never repeating a poll id, every poll of the store is still in
    the store afterwards, with the same options under the same ids, no
    option's vote count smaller than before, and closed if it was closed. *)
Theorem nothing_removed_decreased_reopened (ops : list Op) :
  forall self : PollStore,
    uuids_fresh ops self -> store_kept self (run ops self).
Proof.
  induction ops as [|op ops IH]; intros self H; simpl.
  - apply store_kept_refl.
  - destruct H as [H1 H2]. eapply store_kept_trans.
    + apply exec_kept; eassumption.
    + apply IH; assumption.
Qed.

(** ** Closed polls *)

(** A vote on a poll that is not open raises, and the store is as before. *)
Lemma vote_closed self poll_id voter_name option_id poll :
  dict_get poll_id self = Some poll ->
  PollRecord.status poll = CLOSED ->
  vote poll_id voter_name option_id self = (Raise AlreadyClosed, self).
Proof. intros Hp Hs. unfold vote. now rewrite Hp, Hs. Qed.

(** One call leaves the tally and the ledger of a closed poll alone. *)
Lemma exec_frozen op self poll_id poll :
  uuid_fresh op self ->
  dict_get poll_id self = Some poll ->
  PollRecord.status poll = CLOSED ->
  exists poll',
    dict_get poll_id (exec op self) = Some poll'
    /\ PollRecord.status poll' = CLOSED
    /\ PollRecord.options poll' = PollRecord.options poll
    /\ PollRecord.voters poll' = PollRecord.voters poll.
Proof.
  intros Hf Hp Hs.
  assert (Hnew : forall uuid4 utcnow title options,
             dict_get (uuid4 0%nat) self = None ->
             exists poll',
               dict_get poll_id
                 (snd (create_poll uuid4 utcnow title options self))
               = Some poll'
               /\ PollRecord.status poll' = CLOSED
               /\ PollRecord.options poll' = PollRecord.options poll
               /\ PollRecord.voters poll' = PollRecord.voters poll).
  { intros uuid4 utcnow title options H. unfold create_poll; simpl.
    rewrite dict_get_set_ne by congruence. eauto. }
  destruct op; simpl in *.
  - unfold create. destruct (CreatePollRequest.parse title options);
      simpl; eauto.
  - eauto.
  - destruct (string_dec poll_id0 poll_id) as [->|Hne].
    + rewrite (vote_closed _ _ _ _ _ Hp Hs). simpl. eauto.
    + unfold vote.
      destruct (dict_get poll_id0 self) as [q|]; simpl; eauto.
      destruct (PollStatus_eqb (PollRecord.status q) OPEN); simpl; eauto.
      destruct (dict_contains _ (PollRecord.voters q)); simpl; eauto.
      destruct (dict_get option_id (PollRecord.options q)); simpl; eauto.
      rewrite dict_get_set_ne by assumption. eauto.
  - unfold close_poll. destruct (string_dec poll_id0 poll_id) as [->|Hne].
    + rewrite Hp. simpl. rewrite dict_get_set_eq. eexists.
      split; [reflexivity|]. simpl. auto.
    + destruct (dict_get poll_id0 self) as [q|]; simpl; eauto.
      rewrite dict_get_set_ne by assumption. eauto.
  - eauto.
Qed.

Lemma run_frozen ops : forall self poll_id poll,
  uuids_fresh ops self ->
  dict_get poll_id self = Some poll ->
  PollRecord.status poll = CLOSED ->
  exists poll',
    dict_get poll_id (run ops self) = Some poll'
    /\ PollRecord.status poll' = CLOSED
    /\ PollRecord.options poll' = PollRecord.options poll
    /\ PollRecord.voters poll' = PollRecord.voters poll.
Proof.
  induction ops as [|op ops IH]; intros self poll_id poll Hf Hp Hs; simpl.
  - eauto.
  - destruct Hf as [Hf1 Hf2].
    destruct (exec_frozen op self poll_id poll Hf1 Hp Hs)
      as (q & Hq & Sq & Oq & Vq).
    destruct (IH _ _ _ Hf2 Hq Sq) as (r & Hr & Sr & Or & Vr).
    exists r. repeat split; congruence.
Qed.

(** C4. Once [close_poll] has closed a poll, then after any further calls
    (votes included; [uuid4] never repeating a poll id) every vote on that
    poll raises [AlreadyClosed] and leaves the store as it is, and the
    poll's options with their vote counts and its voter ledger are exactly
    those of the moment of closing. *)
Theorem vote_after_close_rejected (self closed : PollStore)
    (utcnow : datetime) (poll_id : string) (view : PollResponse.t)
    (ops : list Op) (voter_name option_id : string) :
  close_poll utcnow poll_id self = (Ok view, closed) ->
  uuids_fresh ops closed ->
  exists at_close now,
    dict_get poll_id closed = Some at_close
    /\ dict_get poll_id (run ops closed) = Some now
    /\ PollRecord.options now = PollRecord.options at_close
    /\ PollRecord.voters now = PollRecord.voters at_close
    /\ vote poll_id voter_name option_id (run ops closed)
       = (Raise AlreadyClosed, run ops closed).
Proof.
  unfold close_poll. intros Hc Hf.
  destruct (dict_get poll_id self) as [poll|] eqn:Hp; [|discriminate].
  injection Hc as _ <-.
  set (p1 := PollRecord.mk _ _ _ _ _ _ _) in *.
  assert (H1 : dict_get poll_id (dict_set poll_id p1 self) = Some p1)
    by apply dict_get_set_eq.
  destruct (run_frozen ops _ _ _ Hf H1 eq_refl) as (p2 & H2 & S2 & O2 & V2).
  exists p1, p2. repeat split; auto.
  eapply vote_closed; eauto.
Qed.

(** ** Votes *)

Lemma dict_contains_true {V : Type} k (d : dict V) :
  dict_contains k d = true <-> exists v, dict_get k d = Some v.
Proof.
  unfold dict_contains. destruct (dict_get k d) as [v|]; split; eauto.
  - discriminate.
  - intros [v H]. discriminate.
Qed.

(** C9. [vote] checks in a fixed order: an unknown poll raises [NotFound];
    else a poll that is not open raises [AlreadyClosed], whoever votes for
    whatever; else a voter key already in the ledger raises
    [DuplicateVoter], whatever the option; else an unknown option raises
    [InvalidOption]; else the vote succeeds. A failing vote leaves the store
    as it is. *)
Theorem vote_check_order (self : PollStore)
    (poll_id voter_name option_id : string) :
  (dict_get poll_id self = None ->
   vote poll_id voter_name option_id self = (Raise NotFound, self))
  /\ (forall poll, dict_get poll_id self = Some poll ->
      (PollRecord.status poll = CLOSED ->
       vote poll_id voter_name option_id self = (Raise AlreadyClosed, self))
      /\ (PollRecord.status poll = OPEN ->
          dict_contains (lower (strip voter_name)) (PollRecord.voters poll)
          = true ->
          vote poll_id voter_name option_id self
          = (Raise DuplicateVoter, self))
      /\ (PollRecord.status poll = OPEN ->
          dict_contains (lower (strip voter_name)) (PollRecord.voters poll)
          = false ->
          dict_get option_id (PollRecord.options poll) = None ->
          vote poll_id voter_name option_id self
          = (Raise InvalidOption, self))
      /\ (PollRecord.status poll = OPEN ->
          dict_contains (lower (strip voter_name)) (PollRecord.voters poll)
          = false ->
          forall option,
            dict_get option_id (PollRecord.options poll) = Some option ->
            exists view self',
              vote poll_id voter_name option_id self = (Ok view, self'))).
Proof.
  split.
  - intros H. unfold vote. now rewrite H.
  - intros poll Hp. unfold vote. rewrite Hp. repeat split.
    + intros ->. reflexivity.
    + intros -> ->. reflexivity.
    + intros -> -> ->. reflexivity.
    + intros -> -> option ->. simpl. eauto.
Qed.

(** C10. A vote that succeeds found the poll open, the voter key not in
    the ledger and the option in the poll; afterwards the chosen option's
    count is one higher and the voter key is in the ledger with the option's
    id, and nothing else differs: the poll's id, title, status and
    timestamps, the ids and labels of its options, the counts of its other
    options, the other ledger entries, and the other polls. *)
Theorem vote_success_frame (self self' : PollStore)
    (poll_id voter_name option_id : string) (view : PollResponse.t) :
  vote poll_id voter_name option_id self = (Ok view, self') ->
  exists poll option poll' option',
    dict_get poll_id self = Some poll
    /\ dict_get option_id (PollRecord.options poll) = Some option
    /\ dict_get (lower (strip voter_name)) (PollRecord.voters poll) = None
    /\ dict_get poll_id self' = Some poll'
    /\ view = _to_response poll'
    /\ PollRecord.id poll' = PollRecord.id poll
    /\ PollRecord.title poll' = PollRecord.title poll
    /\ PollRecord.status poll' = PollRecord.status poll
    /\ PollRecord.created_at poll' = PollRecord.created_at poll
    /\ PollRecord.closed_at poll' = PollRecord.closed_at poll
    /\ dict_keys (PollRecord.options poll')
       = dict_keys (PollRecord.options poll)
    /\ dict_get option_id (PollRecord.options poll') = Some option'
    /\ PollOptionRecord.votes option' = (PollOptionRecord.votes option + 1)%Z
    /\ PollOptionRecord.id option' = PollOptionRecord.id option
    /\ PollOptionRecord.label option' = PollOptionRecord.label option
    /\ (forall oid, oid <> option_id ->
        dict_get oid (PollRecord.options poll')
        = dict_get oid (PollRecord.options poll))
    /\ PollRecord.voters poll'
       = PollRecord.voters poll ++ [(lower (strip voter_name), option_id)]
    /\ dict_get (lower (strip voter_name)) (PollRecord.voters poll')
       = Some option_id
    /\ (forall key, key <> lower (strip voter_name) ->
        dict_get key (PollRecord.voters poll')
        = dict_get key (PollRecord.voters poll))
    /\ dict_keys self' = dict_keys self
    /\ (forall pid, pid <> poll_id -> dict_get pid self' = dict_get pid self).
Proof.
  unfold vote. intros H.
  destruct (dict_get poll_id self) as [poll|] eqn:Hp; [|discriminate].
  destruct (PollStatus_eqb (PollRecord.status poll) OPEN); [|discriminate].
  simpl in H.
  destruct (dict_contains _ (PollRecord.voters poll)) eqn:Hv; [discriminate|].
  destruct (dict_get option_id (PollRecord.options poll)) as [o|] eqn:Ho;
    [|discriminate].
  injection H as <- <-. apply dict_contains_false in Hv.
  exists poll, o. do 2 eexists.
  split; [reflexivity|]. split; [exact Ho|]. split; [exact Hv|].
  split; [apply dict_get_set_eq|]. simpl.
  split; [reflexivity|]. do 5 (split; [reflexivity|]).
  split; [eapply dict_keys_set_present; eassumption|].
  split; [apply dict_get_set_eq|]. simpl.
  do 3 (split; [reflexivity|]).
  split; [intros oid Hne; apply dict_get_set_ne; congruence|].
  split; [now apply dict_set_absent|].
  split; [apply dict_get_set_eq|].
  split; [intros key Hne; apply dict_get_set_ne; congruence|].
  split; [eapply dict_keys_set_present; eassumption|].
  intros pid Hne. apply dict_get_set_ne. congruence.
Qed.

(** C2. On an open poll, a first vote by a voter whose key is not yet in
    the ledger, for an option of the poll, succeeds; a second vote on the
    same poll under any name with the same trimmed, lowercased key (for any
    option) then raises [DuplicateVoter] and leaves the store, so the poll's
    counts and ledger, as the first vote left it. *)
Theorem second_vote_is_duplicate (self : PollStore) (poll : PollRecord.t)
    (option : PollOptionRecord.t) (poll_id first_name option_id : string) :
  dict_get poll_id self = Some poll ->
  PollRecord.status poll = OPEN ->
  dict_contains (lower (strip first_name)) (PollRecord.voters poll) = false ->
  dict_get option_id (PollRecord.options poll) = Some option ->
  exists view self',
    vote poll_id first_name option_id self = (Ok view, self')
    /\ forall second_name other_option,
         lower (strip second_name) = lower (strip first_name) ->
         vote poll_id second_name other_option self'
         = (Raise DuplicateVoter, self').
Proof.
  intros Hp Hs Hv Ho. unfold vote at 1. rewrite Hp, Hs, Hv, Ho. simpl.
  do 2 eexists. split; [reflexivity|].
  intros second_name other_option Hk. unfold vote.
  rewrite dict_get_set_eq, Hk. simpl.
  unfold dict_contains. now rewrite dict_get_set_eq.
Qed.

(** ** Closing *)

(** C7. [close_poll] on an id that is not in the store raises [NotFound]
    and leaves the store as it is; on an id that is in the store it puts the
    poll's status to closed and its closing timestamp to the current time,
    keeps the rest of the poll, and returns the view of the updated poll. *)
Theorem close_poll_spec (self : PollStore) (utcnow : datetime)
    (poll_id : string) :
  (dict_get poll_id self = None ->
   close_poll utcnow poll_id self = (Raise NotFound, self))
  /\ (forall poll, dict_get poll_id self = Some poll ->
      exists poll',
        close_poll utcnow poll_id self
        = (Ok (_to_response poll'), dict_set poll_id poll' self)
        /\ dict_get poll_id (snd (close_poll utcnow poll_id self))
           = Some poll'
        /\ PollRecord.status poll' = CLOSED
        /\ PollRecord.closed_at poll' = Some utcnow
        /\ PollRecord.id poll' = PollRecord.id poll
        /\ PollRecord.title poll' = PollRecord.title poll
        /\ PollRecord.created_at poll' = PollRecord.created_at poll
        /\ PollRecord.options poll' = PollRecord.options poll
        /\ PollRecord.voters poll' = PollRecord.voters poll).
Proof.
  split.
  - intros H. unfold close_poll. now rewrite H.
  - intros poll Hp. unfold close_poll. rewrite Hp. simpl.
    eexists. split; [reflexivity|]. split; [apply dict_get_set_eq|].
    simpl. repeat split.
Qed.

(** C5, as the code has it. Closing a poll that is already closed raises
    nothing and returns the view of the poll; the poll's status, options
    and ledger (and id, title and creation time) are as before, the other
    polls too, and the closing timestamp is the time of this call. *)
Theorem close_again_restamps (self : PollStore) (utcnow : datetime)
    (poll_id : string) (poll : PollRecord.t) :
  dict_get poll_id self = Some poll ->
  PollRecord.status poll = CLOSED ->
  exists poll',
    close_poll utcnow poll_id self
    = (Ok (_to_response poll'), dict_set poll_id poll' self)
    /\ dict_get poll_id (dict_set poll_id poll' self) = Some poll'
    /\ PollRecord.closed_at poll' = Some utcnow
    /\ PollRecord.status poll' = PollRecord.status poll
    /\ PollRecord.options poll' = PollRecord.options poll
    /\ PollRecord.voters poll' = PollRecord.voters poll
    /\ PollRecord.id poll' = PollRecord.id poll
    /\ PollRecord.title poll' = PollRecord.title poll
    /\ PollRecord.created_at poll' = PollRecord.created_at poll
    /\ dict_keys (dict_set poll_id poll' self) = dict_keys self
    /\ (forall pid, pid <> poll_id ->
        dict_get pid (dict_set poll_id poll' self) = dict_get pid self).
Proof.
  intros Hp Hs. unfold close_poll. rewrite Hp.
  eexists. split; [reflexivity|]. split; [apply dict_get_set_eq|].
  simpl. repeat split; auto.
  - eapply dict_keys_set_present; eassumption.
  - intros pid Hne. apply dict_get_set_ne. congruence.
Qed.

(** ** Sorting *)

Section ListSortFacts.
Context {A K : Type} (key : A -> K) (le : K -> K -> bool).
Hypothesis le_total : forall a b, le a b = true \/ le b a = true.

Lemma sort_insert_perm x l : Permutation (sort_insert key le x l) (x :: l).
Proof.
  induction l as [|y l IH]; simpl; [reflexivity|].
  destruct (le (key x) (key y)); [reflexivity|].
  rewrite IH. apply perm_swap.
Qed.

Lemma list_sort_perm l : Permutation (list_sort key le l) l.
Proof.
  induction l as [|x l IH]; simpl; [reflexivity|].
  rewrite sort_insert_perm. now constructor.
Qed.

Lemma sort_insert_hd x y l :
  key_le key le y x -> HdRel (key_le key le) y l ->
  HdRel (key_le key le) y (sort_insert key le x l).
Proof.
  intros Hyx Hl. destruct l as [|z l]; simpl.
  - now constructor.
  - destruct (le (key x) (key z)); constructor; auto.
    now inversion Hl.
Qed.

Lemma sort_insert_sorted x l :
  Sorted (key_le key le) l -> Sorted (key_le key le) (sort_insert key le x l).
Proof.
  induction 1 as [|y l Hl IH Hy]; simpl.
  - repeat constructor.
  - destruct (le (key x) (key y)) eqn:E.
    + constructor; [now constructor|]. now constructor.
    + constructor; auto. apply sort_insert_hd; auto.
      unfold key_le. destruct (le_total (key x) (key y)); congruence.
Qed.

Lemma list_sort_sorted l : Sorted (key_le key le) (list_sort key le l).
Proof.
  induction l as [|x l IH]; simpl; [constructor|].
  now apply sort_insert_sorted.
Qed.
End ListSortFacts.

(** The order of strings is transitive. *)
Lemma ascii_compare_N a b :
  Ascii.compare a b = N.compare (N_of_ascii a) (N_of_ascii b).
Proof. reflexivity. Qed.

Lemma string_compare_trans_le : forall s1 s2 s3,
  String.compare s1 s2 <> Gt -> String.compare s2 s3 <> Gt ->
  String.compare s1 s3 <> Gt.
Proof.
  induction s1 as [|c1 s1 IH]; intros [|c2 s2] [|c3 s3]; simpl;
    try congruence.
  rewrite !ascii_compare_N.
  destruct (N.compare_spec (N_of_ascii c1) (N_of_ascii c2)) as [E12|L12|G12];
    destruct (N.compare_spec (N_of_ascii c2) (N_of_ascii c3)) as [E23|L23|G23];
    try congruence; intros H12 H23.
  - rewrite E12, E23, N.compare_refl. eauto.
  - rewrite E12. apply N.compare_lt_iff in L23. now rewrite L23.
  - rewrite <- E23. apply N.compare_lt_iff in L12. now rewrite L12.
  - assert (L : (N_of_ascii c1 < N_of_ascii c3)%N) by lia.
    apply N.compare_lt_iff in L. now rewrite L.
Qed.

Lemma string_leb_trans s1 s2 s3 :
  (s1 <=? s2) = true -> (s2 <=? s3) = true -> (s1 <=? s3) = true.
Proof.
  unfold String.leb. intros H12 H23.
  pose proof (string_compare_trans_le s1 s2 s3) as H.
  destruct (String.compare s1 s2); try discriminate;
    destruct (String.compare s2 s3); try discriminate;
    destruct (String.compare s1 s3); auto; exfalso; apply H; congruence.
Qed.

Lemma label_ascending_trans a b c :
  label_ascending a b -> label_ascending b c -> label_ascending a c.
Proof. unfold label_ascending. apply string_leb_trans. Qed.

Lemma newest_first_trans a b c :
  newest_first a b -> newest_first b c -> newest_first a c.
Proof. unfold newest_first. lia. Qed.

Lemma _to_response_options_sorted record :
  StronglySorted label_ascending (PollResponse.options (_to_response record)).
Proof.
  unfold _to_response; simpl. apply Sorted_StronglySorted.
  - intros a b c. apply label_ascending_trans.
  - apply (list_sort_sorted (fun opt => lower (PollOption.label opt))
             String.leb).
    intros a b. apply String.leb_total.
Qed.

Lemma Sorted_map {X Y : Type} (f : X -> Y) (RX : X -> X -> Prop)
    (RY : Y -> Y -> Prop) l :
  (forall a b, RX a b -> RY (f a) (f b)) ->
  Sorted RX l -> Sorted RY (map f l).
Proof.
  intros Hf. induction 1 as [|x l Hl IH Hx]; simpl; constructor; auto.
  destruct Hx; simpl; constructor; auto.
Qed.

(** C6. [all_polls] never raises and returns the store as it found it. Its
    answer holds the views of exactly the polls of the store, newest
    creation time first; in every view the options are exactly the options
    of the poll, in ascending order of their lowercased labels. *)
Theorem all_polls_sorted (self : PollStore) :
  exists views,
    all_polls self = (Ok views, self)
    /\ Permutation views (map _to_response (dict_values self))
    /\ StronglySorted newest_first views
    /\ Forall (fun view =>
                 StronglySorted label_ascending (PollResponse.options view))
         views
    /\ forall record,
         Permutation (PollResponse.options (_to_response record))
           (map option_view (dict_values (PollRecord.options record))).
Proof.
  eexists. split; [reflexivity|]. split; [|split; [|split]].
  - apply Permutation_map. apply list_sort_perm.
  - apply Sorted_StronglySorted.
    + intros a b c. apply newest_first_trans.
    + apply Sorted_map with
        (RX := fun a b : PollRecord.t =>
                 Z.leb (PollRecord.created_at b) (PollRecord.created_at a)
                 = true).
      * intros a b H. unfold newest_first; simpl. now apply Z.leb_le.
      * apply (list_sort_sorted PollRecord.created_at
                 (fun a b => Z.leb b a)).
        intros a b. rewrite !Z.leb_le. lia.
  - apply Forall_forall. intros view Hin. apply in_map_iff in Hin.
    destruct Hin as (record & <- & _). apply _to_response_options_sorted.
  - intros record. unfold _to_response; simpl. apply list_sort_perm.
Qed.

(** ** Creating a poll *)

Lemma cleaned_filter_map (value : list string) :
  map strip (filter (fun opt => truthy (strip opt)) value)
  = filter truthy (map strip value).
Proof.
  induction value as [|x l IH]; simpl; [reflexivity|].
  destruct (truthy (strip x)); simpl; now rewrite IH.
Qed.

Lemma filter_filter {X : Type} (f g : X -> bool) l :
  filter f (filter g l) = filter (fun y => g y && f y) l.
Proof.
  induction l as [|x l IH]; simpl; [reflexivity|].
  destruct (g x); simpl; [destruct (f x)|]; now rewrite IH.
Qed.

(** The loop of [validate_options] computes the first occurrences: what it
    appends to [unique] are the first occurrences whose lowered label is
    not in [seen]. *)
Lemma unique_loop_spec cleaned : forall seen unique,
  unique_loop cleaned seen unique
  = unique ++ filter (fun y => negb (existsb (String.eqb (lower y)) seen))
                (first_occurrences cleaned).
Proof.
  induction cleaned as [|x rest IH]; intros seen unique; simpl.
  - now rewrite app_nil_r.
  - destruct (existsb (String.eqb (lower x)) seen) eqn:E; simpl.
    + rewrite IH. f_equal. rewrite filter_filter. apply filter_ext_in.
      intros y _. destruct (String.eqb_spec (lower y) (lower x)) as [->|];
        simpl; [now rewrite E | reflexivity].
    + rewrite IH, <- app_assoc. simpl. do 2 f_equal.
      rewrite filter_filter. apply filter_ext. intros y. simpl.
      now rewrite negb_orb.
Qed.

Lemma validate_options_unique (value : list string) :
  unique_loop (map strip (filter (fun opt => truthy (strip opt)) value)) [] []
  = surviving_options value.
Proof.
  rewrite unique_loop_spec, cleaned_filter_map. simpl.
  unfold surviving_options. induction (first_occurrences _); simpl; congruence.
Qed.

Lemma NoDup_map_filter {X Y : Type} (f : X -> Y) (g : X -> bool) l :
  NoDup (map f l) -> NoDup (map f (filter g l)).
Proof.
  induction l as [|x l IH]; simpl; auto.
  intros H. inversion H as [|? ? Hx Hl]; subst.
  destruct (g x); simpl; auto. constructor; auto.
  intros Hin. apply Hx. apply in_map_iff in Hin.
  destruct Hin as (y & Hy & Hin). apply filter_In in Hin.
  apply in_map_iff. exists y. tauto.
Qed.

(** No two surviving labels agree up to case. *)
Lemma first_occurrences_nodup labels :
  NoDup (map lower (first_occurrences labels)).
Proof.
  induction labels as [|x l IH]; simpl; constructor.
  - intros Hin. apply in_map_iff in Hin. destruct Hin as (y & Hy & Hin).
    apply filter_In in Hin. destruct Hin as [_ Hne].
    rewrite Hy, String.eqb_refl in Hne. discriminate.
  - now apply NoDup_map_filter.
Qed.

(** Every label is represented: some surviving label agrees with it up to
    case. *)
Lemma first_occurrences_covers labels x :
  In x labels -> In (lower x) (map lower (first_occurrences labels)).
Proof.
  induction labels as [|y l IH]; simpl; [tauto|].
  intros [->|Hin]; [now left|].
  destruct (String.eqb_spec (lower x) (lower y)) as [E|Hne]; [now left|].
  right. specialize (IH Hin). apply in_map_iff in IH.
  destruct IH as (z & Hz & Hin'). apply in_map_iff. exists z. split; auto.
  apply filter_In. split; auto. rewrite Hz.
  apply String.eqb_neq in Hne. now rewrite Hne.
Qed.

Lemma dict_get_app_None {V : Type} k (d d' : dict V) :
  dict_get k d = None -> dict_get k (d ++ d') = dict_get k d'.
Proof.
  induction d as [|[k' v] d IH]; simpl; auto.
  destruct (k' =? k); [discriminate | auto].
Qed.

(** With distinct answers of [uuid4], the loop of [create_poll] appends one
    record per label, in the order of the labels. *)
Lemma option_loop_distinct uuid4 options : forall k option_records,
  NoDup (map uuid4 (seq k (length options))) ->
  (forall i, In i (seq k (length options)) ->
             dict_get (uuid4 i) option_records = None) ->
  option_loop uuid4 k options option_records
  = option_records
    ++ map (fun il => (uuid4 (fst il),
                       PollOptionRecord.mk (uuid4 (fst il)) (snd il) 0%Z))
         (combine (seq k (length options)) options).
Proof.
  induction options as [|label rest IH]; intros k acc Hnd Hacc; simpl.
  - now rewrite app_nil_r.
  - simpl in Hnd. inversion Hnd as [|? ? Hk Hrest]; subst.
    rewrite (dict_set_absent (uuid4 k)) by (apply Hacc; now left).
    rewrite IH; auto.
    + now rewrite <- app_assoc.
    + intros i Hi. rewrite dict_get_app_None by (apply Hacc; now right).
      simpl. destruct (String.eqb_spec (uuid4 k) (uuid4 i)) as [E|]; auto.
      exfalso. apply Hk. rewrite E. now apply in_map.
Qed.

Lemma combine_seq_labels (f : nat -> string) options : forall k,
  map PollOptionRecord.label
    (dict_values
       (map (fun il => (f (fst il),
                        PollOptionRecord.mk (f (fst il)) (snd il) 0%Z))
          (combine (seq k (length options)) options)))
  = options.
Proof.
  induction options as [|label rest IH]; intros k; simpl; [reflexivity|].
  f_equal. apply IH.
Qed.

Lemma truthy_false s : truthy s = false <-> s = "".
Proof. destruct s; simpl; split; congruence. Qed.

(** C3. A create call trims the options, drops the empty ones and keeps
    the first occurrence of every label up to case, in order of first
    appearance. With an empty trimmed title or fewer than two surviving
    labels it raises [ValidationError] and the store is as before. Otherwise
    (the ids drawn for the options being distinct) the store holds, under
    the new id, an open poll with the trimmed title, no closing time, an
    empty ledger and exactly the surviving labels as its options, in that
    order and each at zero votes; no two of them agree up to case. *)
Theorem create_spec (uuid4 : nat -> string) (utcnow : datetime)
    (title : string) (options : list string) (self : PollStore) :
  (strip title = "" \/ (length (surviving_options options) < 2)%nat ->
   exists errors,
     create uuid4 utcnow title options self
     = (Raise (ValidationError errors), self))
  /\ (strip title <> "" ->
      (2 <= length (surviving_options options))%nat ->
      NoDup (map uuid4 (seq 1 (length (surviving_options options)))) ->
      exists poll,
        create uuid4 utcnow title options self
        = (Ok (_to_response poll), dict_set (uuid4 0%nat) poll self)
        /\ dict_get (uuid4 0%nat)
             (snd (create uuid4 utcnow title options self)) = Some poll
        /\ map PollOptionRecord.label (dict_values (PollRecord.options poll))
           = surviving_options options
        /\ Forall (fun o => PollOptionRecord.votes o = 0%Z)
             (dict_values (PollRecord.options poll))
        /\ NoDup (map lower (surviving_options options))
        /\ PollRecord.status poll = OPEN
        /\ PollRecord.voters poll = []
        /\ PollRecord.id poll = uuid4 0%nat
        /\ PollRecord.title poll = strip title
        /\ PollRecord.created_at poll = utcnow
        /\ PollRecord.closed_at poll = None).
Proof.
  unfold create, CreatePollRequest.parse, validate_title, validate_options.
  rewrite validate_options_unique. split.
  - intros [Ht|Hn].
    + rewrite Ht. simpl.
      destruct (length (surviving_options options) <? 2)%nat; eauto.
    + apply Nat.ltb_lt in Hn. rewrite Hn.
      destruct (negb (truthy (strip title))); eauto.
  - intros Ht Hn Hnd.
    destruct (truthy (strip title)) eqn:Et;
      [|apply truthy_false in Et; contradiction].
    apply Nat.ltb_ge in Hn. rewrite Hn. simpl.
    unfold create_poll. eexists. split; [reflexivity|].
    split; [apply dict_get_set_eq|]. simpl.
    rewrite option_loop_distinct by (auto; intros; reflexivity). simpl.
    split; [apply combine_seq_labels|].
    split.
    { apply Forall_forall. intros o Ho. unfold dict_values in Ho.
      rewrite map_map in Ho. apply in_map_iff in Ho.
      destruct Ho as (il & <- & _). reflexivity. }
    split; [apply first_occurrences_nodup|]. repeat split.
Qed.

(** ** The scenario, run *)

Example lunch_created_poll : dict_get "a" lunch_created = Some lunch_poll_created.
Proof. reflexivity. Qed.

Example lunch_voted_poll : dict_get "a" lunch_voted = Some lunch_poll_voted.
Proof. reflexivity. Qed.

Example lunch_closed_poll : dict_get "a" lunch_closed = Some lunch_poll_closed.
Proof. reflexivity. Qed.

Example voter_keys_agree :
  lower (strip "Ann") = "ann" /\ lower (strip " ann ") = "ann"
  /\ lower (strip "ANN") = "ann".
Proof. repeat split. Qed.

Example red_red_blue : surviving_options ["Red"; "red"; "Blue"] = ["Red"; "Blue"].
Proof. reflexivity. Qed.

Example lunch_view :
  map PollOption.label (PollResponse.options (_to_response lunch_poll_voted))
  = ["Pizza"; "Salad"; "Tacos"].
Proof. reflexivity. Qed.

Lemma tally_equals_ledger_witness :
  dict_get "a" (run [OpCreate demo_uuid4 5%Z "Lunch"
                       ["Pizza"; "Pizza"; "Tacos"; "Salad"];
                     OpVote "a" "Alice" "b"; OpVote "a" "alice " "c"]
                  empty_store)
  = Some lunch_poll_voted
  /\ total_votes lunch_poll_voted = ledger_size lunch_poll_voted.
Proof.
  split; [reflexivity|].
  apply (tally_equals_ledger
           [OpCreate demo_uuid4 5%Z "Lunch"
              ["Pizza"; "Pizza"; "Tacos"; "Salad"];
            OpVote "a" "Alice" "b"; OpVote "a" "alice " "c"] "a").
  reflexivity.
Defined.

Lemma second_vote_is_duplicate_witness :
  exists view self',
    vote "a" "Ann" "c" lunch_voted = (Ok view, self')
    /\ vote "a" " ann " "c" self' = (Raise DuplicateVoter, self')
    /\ vote "a" "ANN" "d" self' = (Raise DuplicateVoter, self').
Proof.
  destruct (second_vote_is_duplicate lunch_voted lunch_poll_voted
              (PollOptionRecord.mk "c" "Tacos" 0%Z) "a" "Ann" "c")
    as (view & self' & H1 & H2); try reflexivity.
  exists view, self'. split; [exact H1|].
  split; apply H2; reflexivity.
Defined.

Lemma create_spec_witness :
  (exists errors,
     create demo_uuid4 5%Z "Colors" ["Red"; " red"; " "] empty_store
     = (Raise (ValidationError errors), empty_store))
  /\ exists poll,
       dict_get "a"
         (snd (create demo_uuid4 5%Z " Colors " ["Red"; "red"; "Blue"]
                 empty_store)) = Some poll
       /\ map PollOptionRecord.label (dict_values (PollRecord.options poll))
          = ["Red"; "Blue"]
       /\ PollRecord.status poll = OPEN
       /\ PollRecord.voters poll = [].
Proof.
  split.
  - apply (proj1 (create_spec demo_uuid4 5%Z "Colors" ["Red"; " red"; " "]
                    empty_store)).
    right. simpl. lia.
  - destruct (proj2 (create_spec demo_uuid4 5%Z " Colors "
                       ["Red"; "red"; "Blue"] empty_store))
      as (poll & _ & Hget & Hlabels & _ & _ & Hstatus & Hvoters & _).
    + discriminate.
    + simpl. lia.
    + simpl. repeat constructor; simpl; intuition discriminate.
    + exists poll. repeat split; assumption.
Defined.

Lemma vote_after_close_rejected_witness :
  exists at_close now,
    dict_get "a" lunch_closed = Some at_close
    /\ dict_get "a" (run [OpVote "a" "Bob" "c";
                          OpCreatePoll later_uuid4 12%Z "Tea" ["Green"; "Black"];
                          OpClosePoll 13%Z "a"] lunch_closed) = Some now
    /\ PollRecord.options now = PollRecord.options at_close
    /\ PollRecord.voters now = PollRecord.voters at_close
    /\ vote "a" "Bob" "c"
         (run [OpVote "a" "Bob" "c"; OpCreatePoll later_uuid4 12%Z "Tea" ["Green"; "Black"];
               OpClosePoll 13%Z "a"] lunch_closed)
       = (Raise AlreadyClosed,
          run [OpVote "a" "Bob" "c"; OpCreatePoll later_uuid4 12%Z "Tea" ["Green"; "Black"];
               OpClosePoll 13%Z "a"] lunch_closed).
Proof.
  apply (vote_after_close_rejected lunch_voted lunch_closed 9%Z "a"
           (_to_response lunch_poll_closed)).
  - reflexivity.
  - simpl. auto.
Defined.

(** C5, the claim as stated fails: the poll "Lunch", closed at time 9 and
    closed again at time 12, has closing timestamp 12 afterwards. *)
Lemma close_again_changes_closed_at :
  ~ close_leaves_unchanged lunch_closed 12%Z "a".
Proof.
  intros H.
  destruct (H lunch_poll_closed eq_refl eq_refl)
    as (view & self' & poll' & Hc & Hg & _ & Ht & _).
  vm_compute in Hc. injection Hc as _ <-.
  vm_compute in Hg. injection Hg as <-.
  discriminate Ht.
Qed.

Lemma close_again_restamps_witness :
  exists poll',
    close_poll 12%Z "a" lunch_closed
    = (Ok (_to_response poll'), dict_set "a" poll' lunch_closed)
    /\ PollRecord.closed_at poll' = Some 12%Z
    /\ PollRecord.status poll' = CLOSED
    /\ PollRecord.options poll' = lunch_options 1%Z
    /\ PollRecord.voters poll' = [("alice", "b")].
Proof.
  destruct (close_again_restamps lunch_closed 12%Z "a" lunch_poll_closed
              eq_refl eq_refl)
    as (poll' & Hc & _ & Ht & Hs & Ho & Hv & _).
  exists poll'. repeat split; assumption.
Defined.

Lemma close_poll_spec_witness :
  close_poll 9%Z "zz" lunch_voted = (Raise NotFound, lunch_voted)
  /\ exists poll',
       close_poll 9%Z "a" lunch_voted
       = (Ok (_to_response poll'), dict_set "a" poll' lunch_voted)
       /\ PollRecord.status poll' = CLOSED
       /\ PollRecord.closed_at poll' = Some 9%Z.
Proof.
  split.
  - apply (proj1 (close_poll_spec lunch_voted 9%Z "zz")). reflexivity.
  - destruct (proj2 (close_poll_spec lunch_voted 9%Z "a") lunch_poll_voted
                eq_refl)
      as (poll' & Hc & _ & Hs & Ht & _).
    exists poll'. repeat split; assumption.
Defined.

Lemma nothing_removed_decreased_reopened_witness :
  uuids_fresh [OpVote "a" "Bob" "c";
               OpCreatePoll later_uuid4 12%Z "Tea" ["Green"; "Black"];
               OpClosePoll 13%Z "a"; OpAllPolls] lunch_voted
  /\ store_kept lunch_voted
       (run [OpVote "a" "Bob" "c";
             OpCreatePoll later_uuid4 12%Z "Tea" ["Green"; "Black"];
             OpClosePoll 13%Z "a"; OpAllPolls] lunch_voted).
Proof.
  assert (H : uuids_fresh [OpVote "a" "Bob" "c";
               OpCreatePoll later_uuid4 12%Z "Tea" ["Green"; "Black"];
               OpClosePoll 13%Z "a"; OpAllPolls] lunch_voted)
    by (simpl; auto).
  split; [exact H|].
  apply (nothing_removed_decreased_reopened _ _ H).
Defined.

(** The two cases the claim names: a duplicate voter on a closed poll gets
    [AlreadyClosed], a duplicate voter citing an unknown option gets
    [DuplicateVoter]. *)
Lemma vote_check_order_witness :
  vote "zz" "Alice" "b" lunch_voted = (Raise NotFound, lunch_voted)
  /\ vote "a" "ALICE" "zz" lunch_closed = (Raise AlreadyClosed, lunch_closed)
  /\ vote "a" "ALICE" "zz" lunch_voted = (Raise DuplicateVoter, lunch_voted)
  /\ vote "a" "Bob" "zz" lunch_voted = (Raise InvalidOption, lunch_voted).
Proof.
  split; [|split; [|split]].
  - apply (proj1 (vote_check_order lunch_voted "zz" "Alice" "b")).
    reflexivity.
  - apply (proj2 (vote_check_order lunch_closed "a" "ALICE" "zz")
             lunch_poll_closed eq_refl).
    reflexivity.
  - apply (proj2 (vote_check_order lunch_voted "a" "ALICE" "zz")
             lunch_poll_voted eq_refl); reflexivity.
  - apply (proj2 (vote_check_order lunch_voted "a" "Bob" "zz")
             lunch_poll_voted eq_refl); reflexivity.
Defined.

Lemma vote_success_frame_witness :
  exists poll option poll' option',
    dict_get "a" lunch_created = Some poll
    /\ dict_get "b" (PollRecord.options poll) = Some option
    /\ dict_get "a" lunch_voted = Some poll'
    /\ dict_get "b" (PollRecord.options poll') = Some option'
    /\ PollOptionRecord.votes option' = (PollOptionRecord.votes option + 1)%Z
    /\ PollRecord.voters poll' = PollRecord.voters poll ++ [("alice", "b")].
Proof.
  destruct (vote_success_frame lunch_created lunch_voted "a" "Alice" "b"
              (_to_response lunch_poll_voted) eq_refl)
    as (poll & option & poll' & option' & H).
  exists poll, option, poll', option'. tauto.
Defined.

(** * Further properties *)

(** ** Trimming and lowering *)

Lemma lstrip_empty s : lstrip s = "" <-> isblank s = true.
Proof.
  induction s as [|c r IH]; simpl; [tauto|].
  destruct (isspace c); simpl; [exact IH|]. split; discriminate.
Qed.

Lemma rstrip_empty s : rstrip s = "" <-> isblank s = true.
Proof.
  induction s as [|c r IH]; simpl; [tauto|].
  destruct (rstrip r) eqn:E.
  - destruct (isspace c); simpl.
    + tauto.
    + split; discriminate.
  - split; [discriminate|]. intros H. apply andb_true_iff in H.
    destruct H as [_ H]. apply IH in H. discriminate.
Qed.

(** What [lstrip] returns does not start with whitespace. *)
Lemma lstrip_head s c r : lstrip s = String c r -> isspace c = false.
Proof.
  induction s as [|c' r' IH]; simpl; [discriminate|].
  destruct (isspace c') eqn:E; auto. intros [= <- <-]. exact E.
Qed.

Lemma strip_empty s : strip s = "" <-> isblank s = true.
Proof.
  unfold strip. rewrite <- lstrip_empty.
  destruct (lstrip s) as [|c r] eqn:E; [simpl; tauto|].
  pose proof (lstrip_head _ _ _ E) as Hc. simpl.
  destruct (rstrip r); [rewrite Hc|]; split; discriminate.
Qed.

Lemma rstrip_idem s : rstrip (rstrip s) = rstrip s.
Proof.
  induction s as [|c r IH]; simpl; [reflexivity|].
  destruct (rstrip r) as [|c' r'] eqn:E.
  - destruct (isspace c) eqn:Ec; simpl; [reflexivity|]. now rewrite Ec.
  - simpl in *. now rewrite IH.
Qed.

(** Trimming on the right keeps the first character of a string that does
    not start with whitespace. *)
Lemma lstrip_rstrip c r :
  isspace c = false -> lstrip (rstrip (String c r)) = rstrip (String c r).
Proof.
  intros Hc. simpl. destruct (rstrip r); [rewrite Hc|]; simpl; now rewrite Hc.
Qed.

Lemma strip_idem s : strip (strip s) = strip s.
Proof.
  unfold strip. destruct (lstrip s) as [|c r] eqn:E; [reflexivity|].
  rewrite (lstrip_rstrip _ _ (lstrip_head _ _ _ E)). apply rstrip_idem.
Qed.

Lemma isspace_lower_char c : isspace (lower_char c) = isspace c.
Proof. destruct c as [[] [] [] [] [] [] [] []]; reflexivity. Qed.

Lemma lower_char_idem c : lower_char (lower_char c) = lower_char c.
Proof. destruct c as [[] [] [] [] [] [] [] []]; reflexivity. Qed.

Lemma lower_idem s : lower (lower s) = lower s.
Proof.
  induction s as [|c r IH]; simpl; [reflexivity|].
  now rewrite lower_char_idem, IH.
Qed.

Lemma lower_empty s : lower s = "" <-> s = "".
Proof. destruct s; simpl; split; congruence. Qed.

Lemma lstrip_lower s : lstrip (lower s) = lower (lstrip s).
Proof.
  induction s as [|c r IH]; simpl; [reflexivity|].
  rewrite isspace_lower_char. now destruct (isspace c).
Qed.

Lemma rstrip_lower s : rstrip (lower s) = lower (rstrip s).
Proof.
  induction s as [|c r IH]; simpl; [reflexivity|].
  rewrite IH, isspace_lower_char.
  destruct (rstrip r); simpl; [now destruct (isspace c) | reflexivity].
Qed.

Lemma strip_lower s : strip (lower s) = lower (strip s).
Proof. unfold strip. now rewrite lstrip_lower, rstrip_lower. Qed.

(** A voter key is its own key. *)
Lemma voter_key_idem s : lower (strip (lower (strip s))) = lower (strip s).
Proof. now rewrite strip_lower, strip_idem, lower_idem. Qed.

(** ** The validators of the request models *)

Lemma truthy_strip value : truthy (strip value) = negb (isblank value).
Proof.
  destruct (isblank value) eqn:E.
  - apply strip_empty in E. now rewrite E.
  - destruct (strip value) eqn:Es; [|reflexivity].
    apply strip_empty in Es. congruence.
Qed.

(** X1. The validators of [title], [name] and [voter_name] refuse exactly
    the values made of whitespace only (the empty one included); any other
    value is accepted as its trimmed form, which is not empty and which the
    same validator accepts unchanged. *)
Theorem field_validators_trim (value : string) :
  (isblank value = true ->
   validate_title value = Raise (ValueError "Title is required")
   /\ validate_name value = Raise (ValueError "Name is required")
   /\ validate_voter_name value
      = Raise (ValueError "Voter name is required"))
  /\ (isblank value = false ->
      strip value <> ""
      /\ validate_title value = Ok (strip value)
      /\ validate_name value = Ok (strip value)
      /\ validate_voter_name value = Ok (strip value)
      /\ validate_title (strip value) = Ok (strip value)
      /\ validate_name (strip value) = Ok (strip value)
      /\ validate_voter_name (strip value) = Ok (strip value)).
Proof.
  unfold validate_title, validate_name, validate_voter_name.
  rewrite strip_idem, truthy_strip. split; intros H; rewrite H; simpl.
  - auto.
  - repeat split. intros E. apply strip_empty in E. congruence.
Qed.

Lemma first_occurrences_In labels x :
  In x (first_occurrences labels) -> In x labels.
Proof.
  induction labels as [|y l IH]; simpl; [tauto|].
  intros [->|H]; [now left|]. apply filter_In in H. right. tauto.
Qed.

(** A list without two labels that agree up to case is its own list of
    first occurrences. *)
Lemma first_occurrences_fixed labels :
  NoDup (map lower labels) -> first_occurrences labels = labels.
Proof.
  induction labels as [|x l IH]; simpl; [reflexivity|].
  intros H. inversion H as [|? ? Hx Hl]; subst. rewrite (IH Hl). f_equal.
  apply forallb_filter_id. apply forallb_forall. intros y Hy.
  destruct (String.eqb_spec (lower y) (lower x)) as [E|]; [|reflexivity].
  exfalso. apply Hx. rewrite <- E. now apply in_map.
Qed.

Lemma surviving_options_In options label :
  In label (surviving_options options) ->
  label <> "" /\ strip label = label
  /\ exists raw, In raw options /\ label = strip raw.
Proof.
  unfold surviving_options. intros H. apply first_occurrences_In in H.
  apply filter_In in H. destruct H as [H Ht].
  apply in_map_iff in H. destruct H as (raw & <- & Hraw).
  repeat split.
  - intros E. rewrite E in Ht. discriminate.
  - apply strip_idem.
  - eauto.
Qed.

Lemma validate_options_Ok value unique :
  validate_options value = Ok unique ->
  unique = surviving_options value /\ (2 <= length unique)%nat.
Proof.
  unfold validate_options. rewrite validate_options_unique.
  destruct (length (surviving_options value) <? 2)%nat eqn:E;
    [discriminate|].
  intros [= <-]. split; [reflexivity|]. now apply Nat.ltb_ge.
Qed.

(** X2. The labels that [validate_options] accepts: at least two, each
    one the trimmed form of an entry of the request and not empty, no two
    of them equal up to case; and every entry of the request that is not
    blank is represented by a label equal to it up to case. *)
Theorem validate_options_labels (value unique : list string) :
  validate_options value = Ok unique ->
  (2 <= length unique)%nat
  /\ Forall (fun label =>
               label <> "" /\ strip label = label
               /\ exists raw, In raw value /\ label = strip raw) unique
  /\ NoDup (map lower unique)
  /\ forall raw, In raw value -> isblank raw = false ->
       exists label, In label unique /\ lower label = lower (strip raw).
Proof.
  intros H. apply validate_options_Ok in H. destruct H as [-> Hlen].
  split; [exact Hlen|]. split; [|split].
  - apply Forall_forall. intros label. apply surviving_options_In.
  - apply first_occurrences_nodup.
  - intros raw Hraw Hb.
    assert (Hin : In (strip raw) (filter truthy (map strip value))).
    { apply filter_In. split; [now apply in_map|].
      rewrite truthy_strip, Hb. reflexivity. }
    apply first_occurrences_covers in Hin. apply in_map_iff in Hin.
    destruct Hin as (label & Hl & Hin). eauto.
Qed.

(** X3. [validate_options] accepts its own answer unchanged. *)
Theorem validate_options_idempotent (value unique : list string) :
  validate_options value = Ok unique -> validate_options unique = Ok unique.
Proof.
  intros H. apply validate_options_Ok in H. destruct H as [-> Hlen].
  unfold validate_options. rewrite validate_options_unique.
  assert (E : surviving_options (surviving_options value)
              = surviving_options value).
  { unfold surviving_options at 1.
    assert (Hc : filter truthy (map strip (surviving_options value))
                 = surviving_options value).
    { assert (Hall : forall l,
                 (forall x, In x l -> x <> "" /\ strip x = x) ->
                 filter truthy (map strip l) = l).
      { induction l as [|x l IH]; simpl; [reflexivity|]. intros Hl.
        destruct (Hl x (or_introl eq_refl)) as [Hne Hs]. rewrite Hs.
        destruct x; [congruence|]. simpl. f_equal. apply IH.
        intros y Hy. apply Hl. now right. }
      apply Hall. intros x Hx.
      destruct (surviving_options_In _ _ Hx) as (? & ? & _). auto. }
    rewrite Hc. apply first_occurrences_fixed, first_occurrences_nodup. }
  rewrite E. apply Nat.ltb_ge in Hlen. now rewrite Hlen.
Qed.

(** ** Invariants of the polls in the store *)

(** A property of the polls (with the key they are stored under) that a
    new poll has and that closing and voting keep holds in every store that
    the calls build from the empty one. *)
Section PollInvariant.
Variable I : string -> PollRecord.t -> Prop.

Hypothesis I_created : forall uuid4 utcnow title options,
  I (uuid4 0%nat)
    (PollRecord.mk (uuid4 0%nat) title OPEN utcnow None
       (option_loop uuid4 1 options []) []).

Hypothesis I_closed : forall k p utcnow,
  I k p ->
  I k (PollRecord.mk (PollRecord.id p) (PollRecord.title p) CLOSED
         (PollRecord.created_at p) (Some utcnow) (PollRecord.options p)
         (PollRecord.voters p)).

Hypothesis I_voted : forall k p voter_name option_id o,
  I k p ->
  PollRecord.status p = OPEN ->
  dict_get (lower (strip voter_name)) (PollRecord.voters p) = None ->
  dict_get option_id (PollRecord.options p) = Some o ->
  I k (PollRecord.mk (PollRecord.id p) (PollRecord.title p)
         (PollRecord.status p) (PollRecord.created_at p)
         (PollRecord.closed_at p)
         (dict_set option_id
            (PollOptionRecord.mk (PollOptionRecord.id o)
               (PollOptionRecord.label o) (PollOptionRecord.votes o + 1))
            (PollRecord.options p))
         (dict_set (lower (strip voter_name)) option_id
            (PollRecord.voters p))).

Lemma exec_invariant op (self : PollStore) :
  Forall (fun kv => I (fst kv) (snd kv)) self ->
  Forall (fun kv => I (fst kv) (snd kv)) (exec op self).
Proof.
  intros H.
  assert (Hget : forall k p, dict_get k self = Some p -> I k p).
  { intros k p Hp. apply dict_get_In in Hp. rewrite Forall_forall in H.
    exact (H _ Hp). }
  assert (Hnew : forall uuid4 utcnow title options,
             Forall (fun kv => I (fst kv) (snd kv))
               (snd (create_poll uuid4 utcnow title options self))).
  { intros. unfold create_poll; simpl. apply dict_set_Forall; auto.
    apply I_created. }
  destruct op as [uuid4 utcnow title options|uuid4 utcnow title options
                 |poll_id voter_name option_id|utcnow poll_id|];
    unfold exec; auto.
  - unfold create. destruct (CreatePollRequest.parse title options); auto.
  - unfold vote. destruct (dict_get poll_id self) as [p|] eqn:Hp; auto.
    destruct (PollRecord.status p) eqn:Hs; simpl; auto.
    destruct (dict_contains _ (PollRecord.voters p)) eqn:Hv; simpl; auto.
    destruct (dict_get option_id (PollRecord.options p)) as [o|] eqn:Ho;
      simpl; auto.
    apply dict_set_Forall; auto. simpl. rewrite <- Hs.
    apply I_voted; auto. now apply dict_contains_false.
  - unfold close_poll. destruct (dict_get poll_id self) as [p|] eqn:Hp;
      simpl; auto.
    apply dict_set_Forall; auto. simpl. apply I_closed; auto.
Qed.

Lemma run_invariant ops : forall self : PollStore,
  Forall (fun kv => I (fst kv) (snd kv)) self ->
  Forall (fun kv => I (fst kv) (snd kv)) (run ops self).
Proof.
  induction ops as [|op ops IH]; intros self H; simpl; auto.
  apply IH. now apply exec_invariant.
Qed.

Lemma reachable_invariant ops k p :
  dict_get k (run ops empty_store) = Some p -> I k p.
Proof.
  intros Hp. apply dict_get_In in Hp.
  pose proof (run_invariant ops empty_store (Forall_nil _)) as H.
  rewrite Forall_forall in H. exact (H _ Hp).
Qed.
End PollInvariant.

Lemma ballots_for_nil option_id : ballots_for option_id [] = 0%Z.
Proof. reflexivity. Qed.

Lemma ballots_for_app option_id voters voter_key chosen :
  ballots_for option_id (voters ++ [(voter_key, chosen)])
  = (ballots_for option_id voters
     + if string_dec chosen option_id then 1 else 0)%Z.
Proof.
  unfold ballots_for, dict_values. rewrite map_app, count_occ_app. simpl.
  destruct (string_dec chosen option_id); lia.
Qed.

Lemma option_loop_votes uuid4 options oid o :
  dict_get oid (option_loop uuid4 1 options []) = Some o ->
  PollOptionRecord.votes o = 0%Z.
Proof.
  intros H. apply dict_get_In in H.
  pose proof (option_loop_zero uuid4 options 1 [] (Forall_nil _)) as Hz.
  rewrite Forall_forall in Hz. exact (Hz _ H).
Qed.

(** X4. In every store built by calls from the empty one, the vote count
    of every option of every poll is the number of ledger entries of that
    poll that name the option; in particular no count is negative. *)
Theorem option_count_matches_ballots (ops : list Op) (poll_id : string)
    (poll : PollRecord.t) (option_id : string) (option : PollOptionRecord.t) :
  dict_get poll_id (run ops empty_store) = Some poll ->
  dict_get option_id (PollRecord.options poll) = Some option ->
  PollOptionRecord.votes option
  = ballots_for option_id (PollRecord.voters poll)
  /\ (0 <= PollOptionRecord.votes option)%Z.
Proof.
  intros Hp Ho.
  assert (H : PollOptionRecord.votes option
              = ballots_for option_id (PollRecord.voters poll)).
  { revert option_id option Ho. revert Hp.
    apply (reachable_invariant
             (fun _ p => forall oid o,
                dict_get oid (PollRecord.options p) = Some o ->
                PollOptionRecord.votes o
                = ballots_for oid (PollRecord.voters p))).
    - intros uuid4 utcnow title options oid o Ho; simpl in *.
      rewrite ballots_for_nil. eapply option_loop_votes; eauto.
    - intros k p utcnow Hi oid o Ho; simpl in *. auto.
    - intros k p voter_name chosen o Hi Hs Hv Hc oid o' Ho'; simpl in *.
      rewrite (dict_set_absent _ _ _ Hv), ballots_for_app.
      destruct (string_dec chosen oid) as [->|Hne].
      + rewrite dict_get_set_eq in Ho'. injection Ho' as <-. simpl.
        rewrite (Hi _ _ Hc). reflexivity.
      + rewrite dict_get_set_ne in Ho' by assumption.
        rewrite (Hi _ _ Ho'). lia. }
  split; [exact H|]. rewrite H. unfold ballots_for. lia.
Qed.

(** X5. In every store built by calls from the empty one, a poll has a
    closing timestamp exactly when its status is closed. *)
Theorem closed_at_iff_closed (ops : list Op) (poll_id : string)
    (poll : PollRecord.t) :
  dict_get poll_id (run ops empty_store) = Some poll ->
  (PollRecord.status poll = CLOSED <-> PollRecord.closed_at poll <> None).
Proof.
  apply (reachable_invariant
           (fun _ p =>
              PollRecord.status p = CLOSED <-> PollRecord.closed_at p <> None)).
  - intros; simpl. split; [discriminate | congruence].
  - intros; simpl. split; [discriminate | reflexivity].
  - intros k p voter_name chosen o Hi _ _ _; simpl. exact Hi.
Qed.


Lemma dict_get_set_some {V : Type} k k' (v : V) d :
  dict_get k' d <> None -> dict_get k' (dict_set k v d) <> None.
Proof.
  intros H. destruct (string_dec k k') as [->|Hne].
  - rewrite dict_get_set_eq. discriminate.
  - now rewrite dict_get_set_ne.
Qed.

(** X7. In every store built by calls from the empty one, every ledger
    key is a trimmed, lowercased name (it is its own key), and the option id
    recorded with it is the id of an option of the same poll. *)
Theorem ledger_entries_well_formed (ops : list Op) (poll_id : string)
    (poll : PollRecord.t) (voter_key option_id : string) :
  dict_get poll_id (run ops empty_store) = Some poll ->
  dict_get voter_key (PollRecord.voters poll) = Some option_id ->
  lower (strip voter_key) = voter_key
  /\ exists option,
       dict_get option_id (PollRecord.options poll) = Some option.
Proof.
  intros Hp Hv.
  assert (H : Forall (fun kv =>
                        lower (strip (fst kv)) = fst kv
                        /\ dict_get (snd kv) (PollRecord.options poll) <> None)
                (PollRecord.voters poll)).
  { revert Hp.
    apply (reachable_invariant
             (fun _ p =>
                Forall (fun kv =>
                          lower (strip (fst kv)) = fst kv
                          /\ dict_get (snd kv) (PollRecord.options p) <> None)
                  (PollRecord.voters p))).
    - intros; simpl. constructor.
    - intros k p utcnow Hi; simpl. exact Hi.
    - intros k p voter_name chosen o Hi _ _ Hc; simpl.
      apply dict_set_Forall.
      + eapply Forall_impl; [|exact Hi]. intros [key oid] [Hk Ho]; simpl in *.
        split; [exact Hk|]. now apply dict_get_set_some.
      + simpl. split; [apply voter_key_idem|].
        rewrite dict_get_set_eq. discriminate. }
  apply dict_get_In in Hv. rewrite Forall_forall in H.
  destruct (H _ Hv) as [Hk Ho]; simpl in *. split; [exact Hk|].
  destruct (dict_get option_id (PollRecord.options poll)) as [o|];
    [eauto | congruence].
Qed.

(** ** What the calls keep of a poll, in general *)

Section PollRelation.
Variable Rel : PollRecord.t -> PollRecord.t -> Prop.

Hypothesis Rel_refl : forall p, Rel p p.
Hypothesis Rel_trans : forall p q r, Rel p q -> Rel q r -> Rel p r.

Hypothesis Rel_closed : forall p utcnow,
  Rel p (PollRecord.mk (PollRecord.id p) (PollRecord.title p) CLOSED
           (PollRecord.created_at p) (Some utcnow) (PollRecord.options p)
           (PollRecord.voters p)).

Hypothesis Rel_voted : forall p voter_name option_id o,
  PollRecord.status p = OPEN ->
  dict_get (lower (strip voter_name)) (PollRecord.voters p) = None ->
  dict_get option_id (PollRecord.options p) = Some o ->
  Rel p (PollRecord.mk (PollRecord.id p) (PollRecord.title p)
           (PollRecord.status p) (PollRecord.created_at p)
           (PollRecord.closed_at p)
           (dict_set option_id
              (PollOptionRecord.mk (PollOptionRecord.id o)
                 (PollOptionRecord.label o) (PollOptionRecord.votes o + 1))
              (PollRecord.options p))
           (dict_set (lower (strip voter_name)) option_id
              (PollRecord.voters p))).

Lemma set_related (self : PollStore) k q q' pid p :
  dict_get k self = Some q -> Rel q q' ->
  dict_get pid self = Some p ->
  exists p', dict_get pid (dict_set k q' self) = Some p' /\ Rel p p'.
Proof.
  intros Hq Hr Hp. destruct (string_dec k pid) as [->|Hne].
  - rewrite dict_get_set_eq. exists q'. split; congruence.
  - rewrite dict_get_set_ne by assumption. eauto.
Qed.

Lemma exec_related op (self : PollStore) pid p :
  uuid_fresh op self ->
  dict_get pid self = Some p ->
  exists p', dict_get pid (exec op self) = Some p' /\ Rel p p'.
Proof.
  intros Hf Hp.
  assert (Hnew : forall uuid4 utcnow title options,
             dict_get (uuid4 0%nat) self = None ->
             exists p',
               dict_get pid (snd (create_poll uuid4 utcnow title options self))
               = Some p' /\ Rel p p').
  { intros uuid4 utcnow title options H. unfold create_poll; simpl.
    rewrite dict_get_set_ne by congruence. eauto. }
  destruct op as [uuid4 utcnow title options|uuid4 utcnow title options
                 |poll_id voter_name option_id|utcnow poll_id|];
    unfold exec; simpl in Hf; eauto.
  - unfold create. destruct (CreatePollRequest.parse title options);
      [apply Hnew; exact Hf | simpl; eauto].
  - unfold vote. destruct (dict_get poll_id self) as [q|] eqn:Hq;
      simpl; eauto.
    destruct (PollRecord.status q) eqn:Hs; simpl; eauto.
    destruct (dict_contains _ (PollRecord.voters q)) eqn:Hv; simpl; eauto.
    destruct (dict_get option_id (PollRecord.options q)) as [o|] eqn:Ho;
      simpl; eauto.
    eapply set_related; eauto. rewrite <- Hs.
    apply Rel_voted; auto. now apply dict_contains_false.
  - unfold close_poll. destruct (dict_get poll_id self) as [q|] eqn:Hq;
      simpl; eauto.
    eapply set_related; eauto.
Qed.

Lemma run_related ops : forall (self : PollStore) pid p,
  uuids_fresh ops self ->
  dict_get pid self = Some p ->
  exists p', dict_get pid (run ops self) = Some p' /\ Rel p p'.
Proof.
  induction ops as [|op ops IH]; intros self pid p Hf Hp; simpl; eauto.
  destruct Hf as [Hf1 Hf2].
  destruct (exec_related op self pid p Hf1 Hp) as (q & Hq & R1).
  destruct (IH _ _ _ Hf2 Hq) as (r & Hr & R2). eauto.
Qed.
End PollRelation.

(** X8. Along every sequence of calls, with [uuid4] never repeating a poll
    id, a poll keeps its id, its title and its creation time, and every
    ballot in its ledger stays there with the option it was cast for: a
    recorded vote is never changed or withdrawn. *)
Theorem ballots_never_change (ops : list Op) (self : PollStore)
    (poll_id : string) (poll : PollRecord.t) :
  uuids_fresh ops self ->
  dict_get poll_id self = Some poll ->
  exists poll',
    dict_get poll_id (run ops self) = Some poll' /\ ballots_kept poll poll'.
Proof.
  apply (run_related ballots_kept).
  - intros p. unfold ballots_kept. auto.
  - intros p q r (I1 & T1 & C1 & V1) (I2 & T2 & C2 & V2).
    unfold ballots_kept. repeat split; try congruence. auto.
  - intros p utcnow. unfold ballots_kept; simpl. auto.
  - intros p voter_name option_id o _ Hv _. unfold ballots_kept; simpl.
    repeat split. intros key oid Hk. rewrite dict_get_set_ne; congruence.
Qed.

(** ** Several votes *)

(** A vote whose checks pass, spelled out. *)
Lemma vote_accepted self poll_id voter_name option_id poll option :
  dict_get poll_id self = Some poll ->
  PollRecord.status poll = OPEN ->
  dict_get (lower (strip voter_name)) (PollRecord.voters poll) = None ->
  dict_get option_id (PollRecord.options poll) = Some option ->
  exists poll',
    vote poll_id voter_name option_id self
    = (Ok (_to_response poll'), dict_set poll_id poll' self)
    /\ PollRecord.status poll' = OPEN
    /\ PollRecord.options poll'
       = dict_set option_id
           (PollOptionRecord.mk (PollOptionRecord.id option)
              (PollOptionRecord.label option)
              (PollOptionRecord.votes option + 1))
           (PollRecord.options poll)
    /\ PollRecord.voters poll'
       = PollRecord.voters poll ++ [(lower (strip voter_name), option_id)].
Proof.
  intros Hp Hs Hv Ho. unfold vote, dict_contains. rewrite Hp, Hs, Hv, Ho.
  simpl. eexists. split; [reflexivity|]. simpl.
  repeat split. now apply dict_set_absent.
Qed.

Lemma dict_get_app_last {V : Type} k k' (v : V) d :
  k <> k' -> dict_get k' (d ++ [(k, v)]) = dict_get k' d.
Proof.
  intros Hne. induction d as [|[k0 v0] d IH]; simpl.
  - apply String.eqb_neq in Hne. now rewrite Hne.
  - now rewrite IH.
Qed.

(** X9. Votes cast one after the other on an open poll by voters with
    pairwise different keys, none of them in the ledger yet, each for an
    option of the poll, all succeed: the ledger and the sum of the counts
    grow by the number of votes, every new ballot is in the ledger with its
    option, and the ballots that were there stay. *)
Theorem distinct_voters_all_counted (ballots : list (string * string)) :
  forall (self : PollStore) (poll_id : string) (poll : PollRecord.t),
    dict_get poll_id self = Some poll ->
    PollRecord.status poll = OPEN ->
    NoDup (map (fun b => lower (strip (fst b))) ballots) ->
    (forall b, In b ballots ->
       dict_get (lower (strip (fst b))) (PollRecord.voters poll) = None
       /\ dict_get (snd b) (PollRecord.options poll) <> None) ->
    exists poll',
      dict_get poll_id (snd (vote_all poll_id ballots self)) = Some poll'
      /\ Forall is_ok (fst (vote_all poll_id ballots self))
      /\ length (fst (vote_all poll_id ballots self)) = length ballots
      /\ ledger_size poll'
         = (ledger_size poll + Z.of_nat (length ballots))%Z
      /\ total_votes poll'
         = (total_votes poll + Z.of_nat (length ballots))%Z
      /\ (forall b, In b ballots ->
            dict_get (lower (strip (fst b))) (PollRecord.voters poll')
            = Some (snd b))
      /\ (forall voter_key option_id,
            dict_get voter_key (PollRecord.voters poll) = Some option_id ->
            dict_get voter_key (PollRecord.voters poll') = Some option_id).
Proof.
  induction ballots as [|[voter_name option_id] rest IH];
    intros self poll_id poll Hp Hs Hnd Hall.
  - simpl. exists poll. repeat split; auto; try lia; intros b [].
  - simpl in Hnd. inversion Hnd as [|? ? Hfresh Hnd']; subst.
    destruct (Hall _ (or_introl eq_refl)) as [Hv Ho]. simpl in Hv, Ho.
    destruct (dict_get option_id (PollRecord.options poll)) as [o|] eqn:Eo;
      [clear Ho | congruence].
    destruct (vote_accepted _ _ _ _ _ _ Hp Hs Hv Eo)
      as (p1 & Hvote & Hs1 & Ho1 & Hv1).
    destruct (IH (dict_set poll_id p1 self) poll_id p1) as
      (p2 & Hp2 & Hok & Hlen & Hledger & Htotal & Hnew & Hold); auto.
    { apply dict_get_set_eq. }
    { intros b Hb. destruct (Hall b (or_intror Hb)) as [Hbv Hbo].
      rewrite Hv1, Ho1. split.
      - rewrite dict_get_app_last; auto.
        intros E. apply Hfresh. rewrite E.
        apply (in_map (fun b => lower (strip (fst b)))). exact Hb.
      - now apply dict_get_set_some. }
    simpl. rewrite Hvote.
    destruct (vote_all poll_id rest (dict_set poll_id p1 self))
      as [outcomes self2] eqn:E2. simpl in *.
    assert (Hkey : dict_get (lower (strip voter_name)) (PollRecord.voters p1)
                   = Some option_id).
    { rewrite Hv1, dict_get_app_None by assumption. simpl.
      now rewrite String.eqb_refl. }
    exists p2. split; [exact Hp2|]. split; [constructor; simpl; auto|].
    split; [now rewrite Hlen|]. split; [|split; [|split]].
    + rewrite Hledger. unfold ledger_size, dict_len. rewrite Hv1, length_app.
      simpl. lia.
    + rewrite Htotal. unfold total_votes. rewrite Ho1, (sum_set_votes _ _ _ Eo).
      lia.
    + intros b [<-|Hb]; simpl; auto.
    + intros key oid Hk. apply Hold. rewrite Hv1.
      rewrite dict_get_app_last; auto. congruence.
Qed.

(** X10. The store itself does not refuse a blank voter name: on an open
    poll whose ledger has no empty key, a vote under a name of whitespace
    only, for an option of the poll, succeeds and is recorded under the
    empty key. *)
Theorem store_vote_accepts_blank_name (self : PollStore)
    (poll_id voter_name option_id : string) (poll : PollRecord.t)
    (option : PollOptionRecord.t) :
  dict_get poll_id self = Some poll ->
  PollRecord.status poll = OPEN ->
  isblank voter_name = true ->
  dict_get "" (PollRecord.voters poll) = None ->
  dict_get option_id (PollRecord.options poll) = Some option ->
  exists view self' poll',
    vote poll_id voter_name option_id self = (Ok view, self')
    /\ dict_get poll_id self' = Some poll'
    /\ dict_get "" (PollRecord.voters poll') = Some option_id
    /\ ledger_size poll' = (ledger_size poll + 1)%Z.
Proof.
  intros Hp Hs Hb Hv Ho. apply strip_empty in Hb.
  assert (Hk : lower (strip voter_name) = "") by now rewrite Hb.
  rewrite <- Hk in Hv.
  destruct (vote_accepted _ _ _ _ _ _ Hp Hs Hv Ho)
    as (p1 & Hvote & _ & _ & Hv1).
  exists (_to_response p1), (dict_set poll_id p1 self), p1.
  split; [exact Hvote|]. split; [apply dict_get_set_eq|]. split.
  - rewrite <- Hk, Hv1, dict_get_app_None by assumption. simpl.
    now rewrite String.eqb_refl.
  - unfold ledger_size, dict_len. rewrite Hv1, length_app. simpl. lia.
Qed.

(** X11. A vote request that passes validation carries a trimmed voter
    name that is not empty, and the key under which the store files it is
    the key of the name as it was sent, and is not empty either. *)
Theorem vote_request_key (voter_name option_id : string)
    (payload : VoteRequest.t) :
  VoteRequest.parse voter_name option_id = Ok payload ->
  VoteRequest.voter_name payload = strip voter_name
  /\ VoteRequest.option_id payload = option_id
  /\ VoteRequest.voter_name payload <> ""
  /\ lower (strip (VoteRequest.voter_name payload))
     = lower (strip voter_name)
  /\ lower (strip (VoteRequest.voter_name payload)) <> "".
Proof.
  unfold VoteRequest.parse, validate_voter_name.
  destruct (truthy (strip voter_name)) eqn:E; simpl; [|discriminate].
  intros [= <-]. simpl. rewrite strip_idem.
  assert (Hne : strip voter_name <> "").
  { intros H. rewrite H in E. discriminate. }
  do 4 (split; [auto|]). intros H. apply Hne. now apply lower_empty.
Qed.

(** ** Views *)

Lemma sum_perm l l' : Permutation l l' -> sum l = sum l'.
Proof. induction 1; simpl; lia. Qed.

Lemma view_votes record :
  sum (map PollOption.votes (PollResponse.options (_to_response record)))
  = total_votes record.
Proof.
  unfold _to_response, total_votes; simpl.
  rewrite (sum_perm _ _ (Permutation_map PollOption.votes
                           (list_sort_perm _ _ _))).
  now rewrite map_map.
Qed.

(** X12. For every poll of a store built by calls from the empty one, the
    vote counts shown in its view add up to the number of voters in its
    ledger. *)
Theorem view_counts_sum_to_ledger (ops : list Op) (poll_id : string)
    (poll : PollRecord.t) :
  dict_get poll_id (run ops empty_store) = Some poll ->
  sum (map PollOption.votes (PollResponse.options (_to_response poll)))
  = ledger_size poll.
Proof.
  intros Hp. rewrite view_votes. apply dict_get_In in Hp.
  pose proof (run_ok ops empty_store (Forall_nil _)) as H.
  unfold store_ok in H. rewrite Forall_forall in H. exact (H _ Hp).
Qed.

Lemma dict_set_In_value {V : Type} k (v : V) d :
  In v (dict_values (dict_set k v d)).
Proof.
  unfold dict_values. apply in_map_iff. exists (k, v). split; [reflexivity|].
  apply dict_get_In, dict_get_set_eq.
Qed.

Lemma all_polls_shows (self : PollStore) record :
  In record (dict_values self) ->
  exists views,
    all_polls self = (Ok views, self) /\ In (_to_response record) views.
Proof.
  intros H. eexists. split; [reflexivity|]. apply in_map.
  eapply Permutation_in; [|exact H]. symmetry. apply list_sort_perm.
Qed.

(** X13. The view that a successful [create_poll], [vote] or [close_poll]
    returns is one of the views that [all_polls] returns right after. *)
Theorem returned_view_is_listed (self self' : PollStore)
    (view : PollResponse.t) :
  (exists uuid4 utcnow title options,
     create_poll uuid4 utcnow title options self = (Ok view, self'))
  \/ (exists poll_id voter_name option_id,
        vote poll_id voter_name option_id self = (Ok view, self'))
  \/ (exists utcnow poll_id,
        close_poll utcnow poll_id self = (Ok view, self')) ->
  exists views, all_polls self' = (Ok views, self') /\ In view views.
Proof.
  intros [(uuid4 & utcnow & title & options & H)
         |[(poll_id & voter_name & option_id & H)
          |(utcnow & poll_id & H)]].
  - unfold create_poll in H. injection H as <- <-.
    apply all_polls_shows, dict_set_In_value.
  - unfold vote in H.
    destruct (dict_get poll_id self) as [p|]; [|discriminate].
    destruct (negb _); [discriminate|].
    destruct (dict_contains _ _); [discriminate|].
    destruct (dict_get option_id _); [|discriminate].
    injection H as <- <-. apply all_polls_shows, dict_set_In_value.
  - unfold close_poll in H.
    destruct (dict_get poll_id self) as [p|]; [|discriminate].
    injection H as <- <-. apply all_polls_shows, dict_set_In_value.
Qed.

(** The sort is stable: among the elements that a test on the key picks,
    the order is the order before sorting, provided two elements that the
    test both picks are never strictly out of order. *)
Section ListSortStable.
Context {A K : Type} (key : A -> K) (le : K -> K -> bool).
Variable pick : K -> bool.
Hypothesis pick_le : forall a b,
  pick a = true -> pick b = true -> le a b = true.

Lemma sort_insert_filter x l :
  filter (fun y => pick (key y)) (sort_insert key le x l)
  = filter (fun y => pick (key y)) (x :: l).
Proof.
  induction l as [|y l IH]; [reflexivity|].
  simpl sort_insert. destruct (le (key x) (key y)) eqn:E; [reflexivity|].
  change (filter (fun y => pick (key y)) (y :: sort_insert key le x l))
    with (if pick (key y)
          then y :: filter (fun y => pick (key y)) (sort_insert key le x l)
          else filter (fun y => pick (key y)) (sort_insert key le x l)).
  rewrite IH. simpl.
  destruct (pick (key x)) eqn:Ex, (pick (key y)) eqn:Ey; try reflexivity.
  rewrite (pick_le _ _ Ex Ey) in E. discriminate.
Qed.

Lemma list_sort_filter l :
  filter (fun y => pick (key y)) (list_sort key le l)
  = filter (fun y => pick (key y)) l.
Proof.
  induction l as [|x l IH]; [reflexivity|].
  simpl list_sort. rewrite sort_insert_filter. simpl. now rewrite IH.
Qed.
End ListSortStable.

Lemma filter_map_comm {X Y : Type} (f : X -> Y) (g : Y -> bool) l :
  filter g (map f l) = map f (filter (fun x => g (f x)) l).
Proof.
  induction l as [|x l IH]; simpl; [reflexivity|].
  destruct (g (f x)); simpl; now rewrite IH.
Qed.

Lemma string_leb_refl s : (s <=? s) = true.
Proof.
  unfold String.leb.
  assert (H : String.compare s s = Eq).
  { induction s as [|c r IH]; simpl; [reflexivity|].
    now rewrite ascii_compare_N, N.compare_refl. }
  now rewrite H.
Qed.

(** X14. Ties keep the order of creation: the polls with one and the same
    creation time appear in [all_polls] in the order in which the store
    holds them, and the options of a poll whose labels agree up to case
    appear in its view in the order in which the poll holds them. *)
Theorem views_keep_order_among_equals (self : PollStore) :
  (exists views,
     all_polls self = (Ok views, self)
     /\ forall t,
          filter (fun view => Z.eqb (PollResponse.created_at view) t) views
          = map _to_response
              (filter (fun record => Z.eqb (PollRecord.created_at record) t)
                 (dict_values self)))
  /\ (forall record label,
        filter (fun opt => lower (PollOption.label opt) =? label)
          (PollResponse.options (_to_response record))
        = filter (fun opt => lower (PollOption.label opt) =? label)
            (map option_view (dict_values (PollRecord.options record)))).
Proof.
  split.
  - eexists. split; [reflexivity|]. intros t.
    rewrite filter_map_comm. simpl. f_equal.
    apply (list_sort_filter PollRecord.created_at (fun a b => Z.leb b a)
             (fun k => Z.eqb k t)).
    intros a b Ha Hb. apply Z.eqb_eq in Ha, Hb. subst. apply Z.leb_refl.
  - intros record label. unfold _to_response; simpl.
    apply (list_sort_filter (fun opt => lower (PollOption.label opt))
             String.leb (fun k => k =? label)).
    intros a b Ha Hb. apply String.eqb_eq in Ha, Hb. subst.
    apply string_leb_refl.
Qed.

(** ** The handlers *)

Lemma truthy_true s : truthy s = true <-> s <> "".
Proof. destruct s; simpl; split; congruence. Qed.


(** X15. [require_admin] lets a request through exactly when it carries
    the header, the header's value is the admin keyword, and the keyword is
    not empty; every other request gets the 403 "Admin privileges
    required". With an empty keyword nobody is an admin. *)
Theorem require_admin_spec (ADMIN_KEYWORD : string)
    (x_admin_key : option string) :
  (Api.require_admin ADMIN_KEYWORD x_admin_key = Returned tt
   <-> x_admin_key = Some ADMIN_KEYWORD /\ ADMIN_KEYWORD <> "")
  /\ (Api.require_admin ADMIN_KEYWORD x_admin_key = Returned tt
      \/ Api.require_admin ADMIN_KEYWORD x_admin_key
         = Raised (HTTPException.mk 403 "Admin privileges required")).
Proof.
  unfold Api.require_admin. destruct x_admin_key as [key|].
  - destruct (truthy key) eqn:Et; simpl.
    + destruct (String.eqb_spec key ADMIN_KEYWORD) as [->|Hne]; simpl.
      * split; [|now left]. apply truthy_true in Et. tauto.
      * split; [|now right]. split; [discriminate|].
        intros [[= E] _]. contradiction.
    + split; [|now right]. split; [discriminate|].
      intros [[= ->] Hne]. apply truthy_false in Et. contradiction.
  - split; [|now right]. split; [discriminate|]. intros [[=] _].
Qed.

(** X16. [login] on a validated request answers with the trimmed name.
    The role is "admin" exactly when the trimmed name is the admin keyword,
    and then the answer carries a key that [require_admin] accepts;
    otherwise the role is "participant", there is no key, and a request
    without key is refused. *)
Theorem login_spec (ADMIN_KEYWORD name : string) (payload : LoginRequest.t) :
  LoginRequest.parse name = Ok payload ->
  LoginResponse.name (Api.login ADMIN_KEYWORD payload) = strip name
  /\ (strip name = ADMIN_KEYWORD ->
      LoginResponse.role (Api.login ADMIN_KEYWORD payload) = "admin"
      /\ Api.require_admin ADMIN_KEYWORD
           (LoginResponse.admin_key (Api.login ADMIN_KEYWORD payload))
         = Returned tt)
  /\ (strip name <> ADMIN_KEYWORD ->
      LoginResponse.role (Api.login ADMIN_KEYWORD payload) = "participant"
      /\ LoginResponse.admin_key (Api.login ADMIN_KEYWORD payload) = None
      /\ Api.require_admin ADMIN_KEYWORD
           (LoginResponse.admin_key (Api.login ADMIN_KEYWORD payload))
         = Raised (HTTPException.mk 403 "Admin privileges required")).
Proof.
  unfold LoginRequest.parse, validate_name.
  destruct (truthy (strip name)) eqn:Et; simpl; [|discriminate].
  intros [= <-]. unfold Api.login; simpl.
  destruct (String.eqb_spec (strip name) ADMIN_KEYWORD) as [E|Hne]; simpl.
  - split; [reflexivity|]. split; [|contradiction]. intros _.
    split; [reflexivity|]. unfold Api.require_admin.
    rewrite <- E, Et, String.eqb_refl. reflexivity.
  - split; [reflexivity|]. split; [contradiction|]. intros _.
    repeat split.
Qed.

(** X17. Somebody can log in as admin exactly when the admin keyword is
    not empty and carries no whitespace at its ends: [login] compares the
    keyword with the trimmed name. *)
Theorem admin_login_possible_iff (ADMIN_KEYWORD : string) :
  (exists name payload,
     LoginRequest.parse name = Ok payload
     /\ LoginResponse.role (Api.login ADMIN_KEYWORD payload) = "admin")
  <-> ADMIN_KEYWORD <> "" /\ strip ADMIN_KEYWORD = ADMIN_KEYWORD.
Proof.
  split.
  - intros (name & payload & Hp & Hr).
    unfold LoginRequest.parse, validate_name in Hp.
    destruct (truthy (strip name)) eqn:Et; simpl in Hp; [|discriminate].
    injection Hp as <-. unfold Api.login in Hr; simpl in Hr.
    destruct (String.eqb_spec (strip name) ADMIN_KEYWORD) as [E|Hne];
      [|discriminate].
    rewrite <- E. split; [now apply truthy_true | apply strip_idem].
  - intros [Hne Hs]. exists ADMIN_KEYWORD.
    exists (LoginRequest.mk ADMIN_KEYWORD).
    unfold LoginRequest.parse, validate_name. rewrite Hs.
    apply truthy_true in Hne. rewrite Hne. simpl. split; [reflexivity|].
    unfold Api.login; simpl. now rewrite String.eqb_refl.
Qed.

(** X18. The handler [vote] answers 404 exactly when the poll is not in
    the store; when the poll is there, it either returns the view that the
    store's [vote] returns, with the store's new state, or answers 400 for
    a closed poll, a voter who has voted or an unknown option. Whenever it
    raises, the store is as before, and no exception of the store gets
    through. *)
Theorem api_vote_status (str_exc : exn -> string) (poll_id : string)
    (payload : VoteRequest.t) (poll_store : PollStore) :
  (dict_get poll_id poll_store = None ->
   Api.vote str_exc poll_id payload poll_store
   = (Raised (HTTPException.mk 404 (str_exc NotFound)), poll_store))
  /\ (forall poll, dict_get poll_id poll_store = Some poll ->
      (exists view poll_store',
         vote poll_id (VoteRequest.voter_name payload)
           (VoteRequest.option_id payload) poll_store
         = (Ok view, poll_store')
         /\ Api.vote str_exc poll_id payload poll_store
            = (Returned view, poll_store'))
      \/ (exists e,
            (e = AlreadyClosed \/ e = DuplicateVoter \/ e = InvalidOption)
            /\ Api.vote str_exc poll_id payload poll_store
               = (Raised (HTTPException.mk 400 (str_exc e)), poll_store))).
Proof.
  unfold Api.vote, vote. split.
  - intros ->. reflexivity.
  - intros poll ->.
    destruct (PollStatus_eqb (PollRecord.status poll) OPEN); simpl.
    + destruct (dict_contains _ (PollRecord.voters poll)); simpl.
      * right. exists DuplicateVoter. auto.
      * destruct (dict_get _ (PollRecord.options poll)); simpl.
        -- left. eauto.
        -- right. exists InvalidOption. auto.
    + right. exists AlreadyClosed. auto.
Qed.


(** ** The further properties on the scenario *)

Example lunch_calls_end : run lunch_calls empty_store = lunch_closed.
Proof. reflexivity. Qed.

Lemma field_validators_trim_witness :
  validate_voter_name "   " = Raise (ValueError "Voter name is required")
  /\ validate_title "  Lunch " = Ok "Lunch"
  /\ validate_title "Lunch" = Ok "Lunch".
Proof.
  split; [|split].
  - apply (proj1 (field_validators_trim "   ")). reflexivity.
  - apply (proj2 (field_validators_trim "  Lunch ")). reflexivity.
  - apply (proj2 (field_validators_trim "  Lunch ")). reflexivity.
Defined.

Lemma validate_options_labels_witness :
  validate_options ["Red"; " red"; " "; "Blue "] = Ok ["Red"; "Blue"]
  /\ NoDup (map lower ["Red"; "Blue"])
  /\ exists label, In label ["Red"; "Blue"] /\ lower label = lower (strip " red").
Proof.
  pose proof (validate_options_labels ["Red"; " red"; " "; "Blue "]
                ["Red"; "Blue"] eq_refl) as (_ & _ & Hnd & Hcov).
  split; [reflexivity|]. split; [exact Hnd|].
  apply Hcov; [simpl; auto | reflexivity].
Defined.

Lemma validate_options_idempotent_witness :
  validate_options ["Red"; " red"; " "; "Blue "] = Ok ["Red"; "Blue"]
  /\ validate_options ["Red"; "Blue"] = Ok ["Red"; "Blue"].
Proof.
  split; [reflexivity|].
  apply (validate_options_idempotent ["Red"; " red"; " "; "Blue "]).
  reflexivity.
Defined.

Lemma option_count_matches_ballots_witness :
  dict_get "a" (run lunch_calls empty_store) = Some lunch_poll_closed
  /\ PollOptionRecord.votes (PollOptionRecord.mk "b" "Pizza" 1%Z)
     = ballots_for "b" (PollRecord.voters lunch_poll_closed).
Proof.
  split; [reflexivity|].
  apply (option_count_matches_ballots lunch_calls "a" lunch_poll_closed "b");
    reflexivity.
Defined.

Lemma closed_at_iff_closed_witness :
  PollRecord.status lunch_poll_closed = CLOSED
  <-> PollRecord.closed_at lunch_poll_closed <> None.
Proof.
  apply (closed_at_iff_closed lunch_calls "a"). reflexivity.
Defined.


Lemma ledger_entries_well_formed_witness :
  lower (strip "alice") = "alice"
  /\ exists option,
       dict_get "b" (PollRecord.options lunch_poll_closed) = Some option.
Proof.
  apply (ledger_entries_well_formed lunch_calls "a" lunch_poll_closed);
    reflexivity.
Defined.

Lemma ballots_never_change_witness :
  exists poll',
    dict_get "a"
      (run [OpVote "a" "Bob" "c";
            OpCreatePoll later_uuid4 12%Z "Tea" ["Green"; "Black"];
            OpClosePoll 13%Z "a"] lunch_voted) = Some poll'
    /\ ballots_kept lunch_poll_voted poll'.
Proof.
  apply (ballots_never_change
           [OpVote "a" "Bob" "c";
            OpCreatePoll later_uuid4 12%Z "Tea" ["Green"; "Black"];
            OpClosePoll 13%Z "a"] lunch_voted "a" lunch_poll_voted).
  - simpl. auto.
  - reflexivity.
Defined.

Lemma distinct_voters_all_counted_witness :
  exists poll',
    dict_get "a"
      (snd (vote_all "a" [("Bob", "c"); (" Carol ", "b")] lunch_voted))
    = Some poll'
    /\ Forall is_ok
         (fst (vote_all "a" [("Bob", "c"); (" Carol ", "b")] lunch_voted))
    /\ ledger_size poll' = 3%Z
    /\ total_votes poll' = 3%Z
    /\ dict_get "carol" (PollRecord.voters poll') = Some "b"
    /\ dict_get "alice" (PollRecord.voters poll') = Some "b".
Proof.
  destruct (distinct_voters_all_counted [("Bob", "c"); (" Carol ", "b")]
              lunch_voted "a" lunch_poll_voted)
    as (poll' & Hp & Hok & _ & Hl & Ht & Hnew & Hold).
  - reflexivity.
  - reflexivity.
  - simpl. repeat constructor; simpl; intuition discriminate.
  - intros b [<-|[<-|[]]]; split; solve [reflexivity | discriminate].
  - exists poll'. split; [exact Hp|]. split; [exact Hok|].
    split; [exact Hl|]. split; [exact Ht|]. split.
    + apply (Hnew (" Carol ", "b")). simpl. auto.
    + apply Hold. reflexivity.
Defined.

Lemma store_vote_accepts_blank_name_witness :
  exists view self' poll',
    vote "a" "  " "c" lunch_voted = (Ok view, self')
    /\ dict_get "a" self' = Some poll'
    /\ dict_get "" (PollRecord.voters poll') = Some "c"
    /\ ledger_size poll' = (ledger_size lunch_poll_voted + 1)%Z.
Proof.
  apply (store_vote_accepts_blank_name lunch_voted "a" "  " "c"
           lunch_poll_voted (PollOptionRecord.mk "c" "Tacos" 0%Z));
    reflexivity.
Defined.

Lemma vote_request_key_witness :
  VoteRequest.voter_name (VoteRequest.mk "Ann" "b") = strip " Ann "
  /\ VoteRequest.option_id (VoteRequest.mk "Ann" "b") = "b"
  /\ VoteRequest.voter_name (VoteRequest.mk "Ann" "b") <> ""
  /\ lower (strip (VoteRequest.voter_name (VoteRequest.mk "Ann" "b")))
     = lower (strip " Ann ")
  /\ lower (strip (VoteRequest.voter_name (VoteRequest.mk "Ann" "b"))) <> "".
Proof.
  apply (vote_request_key " Ann " "b"). reflexivity.
Defined.

Lemma view_counts_sum_to_ledger_witness :
  sum (map PollOption.votes
         (PollResponse.options (_to_response lunch_poll_closed)))
  = ledger_size lunch_poll_closed.
Proof.
  apply (view_counts_sum_to_ledger lunch_calls "a"). reflexivity.
Defined.

Lemma returned_view_is_listed_witness :
  exists views,
    all_polls lunch_voted = (Ok views, lunch_voted)
    /\ In (_to_response lunch_poll_voted) views.
Proof.
  apply (returned_view_is_listed lunch_created lunch_voted).
  right. left. exists "a", "Alice", "b". reflexivity.
Defined.

Lemma login_spec_witness :
  LoginResponse.role
    (Api.login "TrentAdmin" (LoginRequest.mk "TrentAdmin")) = "admin"
  /\ Api.require_admin "TrentAdmin"
       (LoginResponse.admin_key
          (Api.login "TrentAdmin" (LoginRequest.mk "TrentAdmin")))
     = Returned tt.
Proof.
  apply (proj1 (proj2 (login_spec "TrentAdmin" " TrentAdmin "
                         (LoginRequest.mk "TrentAdmin") eq_refl))).
  reflexivity.
Defined.

Lemma api_vote_status_witness :
  Api.vote exn_msg "zz" (VoteRequest.mk "Bob" "c") lunch_voted
  = (Raised (HTTPException.mk 404 (exn_msg NotFound)), lunch_voted).
Proof.
  apply (proj1 (api_vote_status exn_msg "zz" (VoteRequest.mk "Bob" "c")
                  lunch_voted)).
  reflexivity.
Defined.


(** ** How calls compose *)


Lemma dict_set_comm {V : Type} k1 k2 (v1 v2 : V) d :
  k1 <> k2 -> dict_get k1 d <> None ->
  dict_set k1 v1 (dict_set k2 v2 d) = dict_set k2 v2 (dict_set k1 v1 d).
Proof.
  intros Hne. induction d as [|[k v] d IH]; simpl; [congruence|].
  destruct (String.eqb_spec k k1) as [->|H1].
  - intros _. apply String.eqb_neq in Hne. rewrite Hne. simpl.
    rewrite String.eqb_refl.
    assert (E : (k1 =? k2) = false) by exact Hne. now rewrite E.
  - intros Hd. destruct (String.eqb_spec k k2) as [->|H2]; simpl.
    + apply String.eqb_neq in H1. rewrite H1, String.eqb_refl. reflexivity.
    + apply String.eqb_neq in H1, H2. rewrite H1, H2. now rewrite IH.
Qed.


(** What a vote on one poll does depends on that poll alone. *)
Lemma vote_local poll_id voter_name option_id (s1 s2 : PollStore) :
  dict_get poll_id s1 = dict_get poll_id s2 ->
  fst (vote poll_id voter_name option_id s1)
  = fst (vote poll_id voter_name option_id s2)
  /\ ((snd (vote poll_id voter_name option_id s1) = s1
       /\ snd (vote poll_id voter_name option_id s2) = s2)
      \/ exists poll',
           dict_get poll_id s1 <> None
           /\ snd (vote poll_id voter_name option_id s1)
              = dict_set poll_id poll' s1
           /\ snd (vote poll_id voter_name option_id s2)
              = dict_set poll_id poll' s2).
Proof.
  intros H. unfold vote. rewrite <- H.
  destruct (dict_get poll_id s1) as [p|]; simpl; auto.
  destruct (negb _); simpl; auto.
  destruct (dict_contains _ _); simpl; auto.
  destruct (dict_get option_id _); simpl; auto.
  split; [reflexivity|]. right. eexists. split; [discriminate|]. eauto.
Qed.

Lemma vote_frame poll_id voter_name option_id other (self : PollStore) :
  poll_id <> other ->
  dict_get other (snd (vote poll_id voter_name option_id self))
  = dict_get other self.
Proof.
  intros Hne.
  destruct (vote_local poll_id voter_name option_id self self eq_refl)
    as [_ [[-> _]|(p' & _ & -> & _)]]; [reflexivity|].
  now apply dict_get_set_ne.
Qed.

(** X21. Votes on two different polls do not interfere: each has the same
    outcome whether it comes first or second, and the store at the end is
    the same in both orders. *)
Theorem votes_on_different_polls_commute (self : PollStore)
    (poll_a voter_a option_a poll_b voter_b option_b : string) :
  poll_a <> poll_b ->
  fst (vote poll_b voter_b option_b (snd (vote poll_a voter_a option_a self)))
  = fst (vote poll_b voter_b option_b self)
  /\ fst (vote poll_a voter_a option_a
            (snd (vote poll_b voter_b option_b self)))
     = fst (vote poll_a voter_a option_a self)
  /\ snd (vote poll_b voter_b option_b
            (snd (vote poll_a voter_a option_a self)))
     = snd (vote poll_a voter_a option_a
              (snd (vote poll_b voter_b option_b self))).
Proof.
  intros Hne.
  assert (Hb : dict_get poll_b (snd (vote poll_a voter_a option_a self))
               = dict_get poll_b self) by now apply vote_frame.
  assert (Ha : dict_get poll_a (snd (vote poll_b voter_b option_b self))
               = dict_get poll_a self)
    by (apply vote_frame; congruence).
  destruct (vote_local poll_b voter_b option_b _ _ Hb) as [Rb Sb].
  destruct (vote_local poll_a voter_a option_a _ _ Ha) as [Ra Sa].
  split; [exact Rb|]. split; [exact Ra|].
  destruct Sb as [[Sb1 Sb2]|(pb & Nb & Sb1 & Sb2)];
    destruct Sa as [[Sa1 Sa2]|(pa & Na & Sa1 & Sa2)];
    rewrite Sb1, Sa1; try rewrite Sb2; try rewrite Sa2; try reflexivity.
  rewrite Ha in Na. symmetry. apply dict_set_comm; assumption.
Qed.

(** X22. The store's [create_poll] checks nothing: whatever labels it is
    given (none, one, or labels that repeat), it stores them as they are, in
    order, one option each at zero votes, provided the ids drawn for the
    options are distinct; the new poll is open with an empty ledger, and
    the polls under other ids are untouched. *)
Theorem create_poll_stores_labels_as_given (uuid4 : nat -> string)
    (utcnow : datetime) (title : string) (options : list string)
    (self : PollStore) :
  NoDup (map uuid4 (seq 1 (length options))) ->
  exists poll,
    create_poll uuid4 utcnow title options self
    = (Ok (_to_response poll), dict_set (uuid4 0%nat) poll self)
    /\ dict_get (uuid4 0%nat)
         (snd (create_poll uuid4 utcnow title options self)) = Some poll
    /\ map PollOptionRecord.label (dict_values (PollRecord.options poll))
       = options
    /\ dict_keys (PollRecord.options poll)
       = map uuid4 (seq 1 (length options))
    /\ Forall (fun o => PollOptionRecord.votes o = 0%Z)
         (dict_values (PollRecord.options poll))
    /\ PollRecord.title poll = title
    /\ PollRecord.status poll = OPEN
    /\ PollRecord.voters poll = []
    /\ forall other, other <> uuid4 0%nat ->
         dict_get other (snd (create_poll uuid4 utcnow title options self))
         = dict_get other self.
Proof.
  intros Hnd. unfold create_poll. eexists. split; [reflexivity|].
  split; [apply dict_get_set_eq|]. simpl.
  rewrite option_loop_distinct by (auto; intros; reflexivity). simpl.
  split; [apply combine_seq_labels|]. split; [|split].
  - unfold dict_keys. rewrite map_map. simpl.
    generalize 1%nat. clear Hnd.
    induction options as [|label rest IH]; intros k; simpl;
      [reflexivity|]. now rewrite IH.
  - apply Forall_forall. intros o Ho. unfold dict_values in Ho.
    rewrite map_map in Ho. apply in_map_iff in Ho.
    destruct Ho as (il & <- & _). reflexivity.
  - repeat split. intros other Hne. apply dict_get_set_ne. congruence.
Qed.

Lemma votes_on_different_polls_commute_witness :
  snd (vote "e" "Bob" "f" (snd (vote "a" "Bob" "c"
         (exec (OpCreatePoll later_uuid4 12%Z "Tea" ["Green"; "Black"])
            lunch_voted))))
  = snd (vote "a" "Bob" "c" (snd (vote "e" "Bob" "f"
           (exec (OpCreatePoll later_uuid4 12%Z "Tea" ["Green"; "Black"])
              lunch_voted)))).
Proof.
  apply (votes_on_different_polls_commute
           (exec (OpCreatePoll later_uuid4 12%Z "Tea" ["Green"; "Black"])
              lunch_voted) "a" "Bob" "c" "e" "Bob" "f").
  discriminate.
Defined.

Lemma create_poll_stores_labels_as_given_witness :
  exists poll,
    dict_get "a" (snd (create_poll demo_uuid4 5%Z "" ["Red"; "red"; ""]
                         empty_store)) = Some poll
    /\ map PollOptionRecord.label (dict_values (PollRecord.options poll))
       = ["Red"; "red"; ""].
Proof.
  destruct (create_poll_stores_labels_as_given demo_uuid4 5%Z ""
              ["Red"; "red"; ""] empty_store)
    as (poll & _ & Hp & Hl & _).
  - simpl. repeat constructor; simpl; intuition discriminate.
  - exists poll. split; assumption.
Defined.
